(** * SplashMiddleware (scrapyjs/middleware.py): embedding and properties

    The middleware is Python 2 code working on dynamically typed request
    metadata.  The development has four layers:

    - [pyval], the universe of Python values that metadata and rendering
      options range over (None, booleans, integers, floats, byte strings and
      string-keyed dictionaries), with dictionaries kept as association lists
      because [json.dumps] and header iteration observe an order;
    - the library functions the middleware calls ([urlparse], [urljoin],
      [json.dumps], [float], the [%s] conversion), written after the
      Python 2.7 standard library;
    - the middleware itself ([from_crawler], [process_request],
      [setup_variables_for_proxy_usage], [_set_download_slot],
      [process_response]), one definition per method, in an exception monad with the mutable objects
      (request metadata, statistics, log) passed explicitly;
    - the properties.

    What the middleware only receives is a parameter ([Runtime]): the
    downloader's slot key, [basic_auth_header], the printing and parsing of
    floats, [int] on strings that are not plain digits.  A [Request] is a
    record: [Request.replace] builds one from the fields it is given, and
    the escaping Scrapy applies to a URL is not part of the model. *)

From Stdlib Require Import ZArith List String Ascii Bool Lia.
From Stdlib Require Import Floats DecimalString.
Import ListNotations.
Local Open Scope list_scope.
Local Open Scope string_scope.

(** ** Python values *)

#[warnings="-register-all"]
Inductive pyval : Type :=
| VNone
| VBool (b : bool)
| VInt (z : Z)
| VFloat (f : float)
| VStr (s : string)
| VDict (d : list (string * pyval)).

(** Python's truth value testing ([if not x]). *)
Definition truthy (v : pyval) : bool :=
  match v with
  | VNone => false
  | VBool b => b
  | VInt z => negb (z =? 0)%Z
  | VFloat f => negb (PrimFloat.eqb f 0)
  | VStr s => negb (s =? "")
  | VDict d => match d with [] => false | _ :: _ => true end
  end.

(** [v == s] for a string literal [s]. *)
Definition py_eq_str (v : pyval) (s : string) : bool :=
  match v with
  | VStr s' => s' =? s
  | _ => false
  end.

(** ** Dictionaries

    An association list with unique keys, in iteration order.  [dict_set]
    overwrites in place and appends a new key; [dict_del] removes the key. *)

Section Dict.
Context {V : Type}.

Fixpoint dict_get (k : string) (d : list (string * V)) : option V :=
  match d with
  | [] => None
  | (k', v) :: d' => if k' =? k then Some v else dict_get k d'
  end.

Definition dict_has (k : string) (d : list (string * V)) : bool :=
  match dict_get k d with Some _ => true | None => false end.

(** [d.get(k, dflt)] *)
Definition dict_get_default (k : string) (dflt : V) (d : list (string * V)) : V :=
  match dict_get k d with Some v => v | None => dflt end.

(** [d[k] = v] *)
Fixpoint dict_set (k : string) (v : V) (d : list (string * V)) : list (string * V) :=
  match d with
  | [] => [(k, v)]
  | (k', v') :: d' =>
      if k' =? k then (k', v) :: d' else (k', v') :: dict_set k v d'
  end.

(** [del d[k]] *)
Fixpoint dict_del (k : string) (d : list (string * V)) : list (string * V) :=
  match d with
  | [] => []
  | (k', v') :: d' =>
      if k' =? k then dict_del k d' else (k', v') :: dict_del k d'
  end.

(** [d.setdefault(k, dflt)]: the value now under [k], and the dictionary. *)
Definition dict_setdefault (k : string) (dflt : V) (d : list (string * V))
  : V * list (string * V) :=
  match dict_get k d with
  | Some v => (v, d)
  | None => (dflt, dict_set k dflt d)
  end.

(** [d.update(other)] *)
Definition dict_update (d other : list (string * V)) : list (string * V) :=
  fold_left (fun acc kv => dict_set (fst kv) (snd kv) acc) other d.
End Dict.

Definition dict := list (string * pyval).

(** ** Exceptions *)

Inductive exn : Type :=
| AttributeError
| TypeError
| ValueError
| IndexError
| KeyError
| OverflowError
| NotConfigured (slot_policy : pyval).

Inductive res (A : Type) : Type :=
| Ok (a : A)
| Raise (e : exn).
Arguments Ok {A} a.
Arguments Raise {A} e.

Definition bind {A B : Type} (m : res A) (k : A -> res B) : res B :=
  match m with
  | Ok a => k a
  | Raise e => Raise e
  end.

Notation "x <- m ;; k" := (bind m (fun x => k))
  (at level 61, m at next level, right associativity).
Notation "' pat <- m ;; k" := (bind m (fun x => match x with pat => k end))
  (at level 61, pat pattern, m at next level, right associativity).

(** Attribute access that only dictionaries (resp. strings) support. *)
Definition as_dict (e : exn) (v : pyval) : res dict :=
  match v with VDict d => Ok d | _ => Raise e end.

Definition as_str (e : exn) (v : pyval) : res string :=
  match v with VStr s => Ok s | _ => Raise e end.

(** ** Byte strings *)

Definition is_digit (c : ascii) : bool :=
  let n := nat_of_ascii c in (48 <=? n)%nat && (n <=? 57)%nat.

Definition is_upper (c : ascii) : bool :=
  let n := nat_of_ascii c in (65 <=? n)%nat && (n <=? 90)%nat.

Definition is_lower (c : ascii) : bool :=
  let n := nat_of_ascii c in (97 <=? n)%nat && (n <=? 122)%nat.

Definition lower_ascii (c : ascii) : ascii :=
  if is_upper c then ascii_of_nat (nat_of_ascii c + 32) else c.

(** [s.lower()] *)
Fixpoint str_lower (s : string) : string :=
  match s with
  | "" => ""
  | String c s' => String (lower_ascii c) (str_lower s')
  end.

Fixpoint string_forallb (p : ascii -> bool) (s : string) : bool :=
  match s with
  | "" => true
  | String c s' => p c && string_forallb p s'
  end.

(** [c in s] *)
Fixpoint str_contains (c : ascii) (s : string) : bool :=
  match s with
  | "" => false
  | String a s' => Ascii.eqb a c || str_contains c s'
  end.

(** [s.split(c, 1)] when [c] occurs in [s]: the text before the first [c]
    and the text after it ([s[:i]] and [s[i+1:]] for [i = s.find(c)]). *)
Fixpoint str_partition (c : ascii) (s : string) : option (string * string) :=
  match s with
  | "" => None
  | String a s' =>
      if Ascii.eqb a c then Some ("", s')
      else match str_partition c s' with
           | Some (pre, post) => Some (String a pre, post)
           | None => None
           end
  end.

(** The same at the last occurrence ([i = s.rfind(c)]). *)
Fixpoint str_rpartition (c : ascii) (s : string) : option (string * string) :=
  match s with
  | "" => None
  | String a s' =>
      match str_rpartition c s' with
      | Some (pre, post) => Some (String a pre, post)
      | None => if Ascii.eqb a c then Some ("", s') else None
      end
  end.

(** [s.split(c)]: the first field and the remaining ones. *)
Fixpoint str_split_fields (c : ascii) (s : string) : string * list string :=
  match s with
  | "" => ("", [])
  | String a s' =>
      let (h, t) := str_split_fields c s' in
      if Ascii.eqb a c then ("", h :: t) else (String a h, t)
  end.

Definition str_split (c : ascii) (s : string) : list string :=
  let (h, t) := str_split_fields c s in h :: t.

(** [sep.join(l)] *)
Fixpoint str_join (sep : string) (l : list string) : string :=
  match l with
  | [] => ""
  | [x] => x
  | x :: l' => x ++ sep ++ str_join sep l'
  end.

(** [s[:len(p)] == p] *)
Fixpoint starts_with (p s : string) : bool :=
  match p, s with
  | "", _ => true
  | String a p', String b s' => Ascii.eqb a b && starts_with p' s'
  | String _ _, "" => false
  end.

(** [str(z)] for an integer. *)
Definition str_of_Z (z : Z) : string := NilZero.string_of_int (Z.to_int z).

(** The value of a string of decimal digits. *)
Fixpoint digits_value (acc : Z) (s : string) : Z :=
  match s with
  | "" => acc
  | String c s' => digits_value (10 * acc + Z.of_nat (nat_of_ascii c - 48)) s'
  end.

(** ** The [urlparse] module of Python 2.7 *)

Module urlparse_py.

Definition uses_relative : list string :=
  ["ftp"; "http"; "gopher"; "nntp"; "imap"; "wais"; "file"; "https";
   "shttp"; "mms"; "prospero"; "rtsp"; "rtspu"; ""; "sftp"; "svn";
   "svn+ssh"].

Definition uses_netloc : list string :=
  ["ftp"; "http"; "gopher"; "nntp"; "telnet"; "imap"; "wais"; "file";
   "mms"; "https"; "shttp"; "snews"; "prospero"; "rtsp"; "rtspu"; "rsync";
   ""; "svn"; "svn+ssh"; "sftp"; "nfs"; "git"; "git+ssh"].

Definition uses_params : list string :=
  ["ftp"; "hdl"; "prospero"; "http"; "imap"; "https"; "shttp"; "rtsp";
   "rtspu"; "sip"; "sips"; "mms"; ""; "sftp"; "tel"].

Definition str_in (s : string) (l : list string) : bool :=
  existsb (String.eqb s) l.

Definition is_scheme_char (c : ascii) : bool :=
  is_lower c || is_upper c || is_digit c
  || Ascii.eqb c "+" || Ascii.eqb c "-" || Ascii.eqb c ".".

Record SplitResult : Type := mkSplit
  { s_scheme : string; s_netloc : string; s_path : string;
    s_query : string; s_fragment : string }.

Record ParseResult : Type := mkParse
  { scheme : string; netloc : string; path : string;
    params : string; query : string; fragment : string }.

(** [_splitnetloc(url, 2)] for a [url] that starts with two slashes,
    given without them: the domain runs up to the first of [/?#]. *)
Fixpoint _splitnetloc (url : string) : string * string :=
  match url with
  | "" => ("", "")
  | String c url' =>
      if Ascii.eqb c "/" || Ascii.eqb c "?" || Ascii.eqb c "#"
      then ("", url)
      else let (d, r) := _splitnetloc url' in (String c d, r)
  end.

(** The tail shared by both branches of [urlsplit]: network location,
    fragment, query. *)
Definition split_rest (scheme url : string) : res SplitResult :=
  '(netloc, url) <-
     (match url with
      | String "/" (String "/" url') =>
          let (netloc, rest) := _splitnetloc url' in
          if xorb (str_contains "[" netloc) (str_contains "]" netloc)
          then Raise ValueError
          else Ok (netloc, rest)
      | _ => Ok ("", url)
      end) ;;
  let (url, fragment) :=
    match str_partition "#" url with
    | Some (u, f) => (u, f)
    | None => (url, "")
    end in
  let (url, query) :=
    match str_partition "?" url with
    | Some (u, q) => (u, q)
    | None => (url, "")
    end in
  Ok (mkSplit scheme netloc url query fragment).

(** [urlsplit(url, scheme)] *)
Definition urlsplit (url scheme : string) : res SplitResult :=
  match str_partition ":" url with
  | Some (String c pre' as pre, rest) =>
      if pre =? "http" then split_rest (str_lower pre) rest
      else if string_forallb is_scheme_char pre
              && ((rest =? "") || negb (string_forallb is_digit rest))
      then split_rest (str_lower pre) rest
      else split_rest scheme url
  | _ => split_rest scheme url
  end.

(** [_splitparams(url)], called when [';' in url]. *)
Definition _splitparams (url : string) : string * string :=
  match str_rpartition "/" url with
  | Some (dir, last) =>
      match str_partition ";" last with
      | Some (p, q) => (dir ++ "/" ++ p, q)
      | None => (url, "")
      end
  | None =>
      match str_partition ";" url with
      | Some (p, q) => (p, q)
      | None => (url, "")
      end
  end.

(** [urlparse(url, scheme)] *)
Definition urlparse (url scheme : string) : res ParseResult :=
  r <- urlsplit url scheme ;;
  let (url, params) :=
    if str_in (s_scheme r) uses_params && str_contains ";" (s_path r)
    then _splitparams (s_path r)
    else (s_path r, "") in
  Ok (mkParse (s_scheme r) (s_netloc r) url params (s_query r) (s_fragment r)).

(** [urlunsplit] *)
Definition urlunsplit (scheme netloc url query fragment : string) : string :=
  let url :=
    if negb (netloc =? "")
       || (negb (scheme =? "") && str_in scheme uses_netloc
           && negb (starts_with "//" url))
    then "//" ++ netloc
         ++ (if negb (url =? "") && negb (starts_with "/" url)
             then "/" ++ url else url)
    else url in
  let url := if negb (scheme =? "") then scheme ++ ":" ++ url else url in
  let url := if negb (query =? "") then url ++ "?" ++ query else url in
  if negb (fragment =? "") then url ++ "#" ++ fragment else url.

(** [urlunparse] *)
Definition urlunparse (p : ParseResult) : string :=
  let url :=
    if negb (params p =? "") then path p ++ ";" ++ params p else path p in
  urlunsplit (scheme p) (netloc p) url (query p) (fragment p).

(** One round of the loop that cancels a [..] segment against the
    segment before it: the first index [i] with [1 <= i < len - 1],
    [segments[i] == '..'] and [segments[i-1]] neither [''] nor ['..'];
    [None] when there is none. *)
Fixpoint collapse_once (segments : list string) : option (list string) :=
  match segments with
  | a :: ((b :: ((_ :: _) as rest')) as rest) =>
      if (b =? "..") && negb ((a =? "") || (a =? ".."))
      then Some rest'
      else option_map (cons a) (collapse_once rest)
  | _ => None
  end.

Fixpoint collapse (fuel : nat) (segments : list string) : list string :=
  match fuel with
  | O => segments
  | S fuel' =>
      match collapse_once segments with
      | Some segments' => collapse fuel' segments'
      | None => segments
      end
  end.

Definition set_last (x : string) (l : list string) : list string :=
  (removelast l ++ [x])%list.

(** [segments == ['', '..']] *)
Definition is_root_parent (segments : list string) : bool :=
  match segments with
  | [a; b] => (a =? "") && (b =? "..")
  | _ => false
  end.

(** The segment clean-up at the end of [urljoin]: a final [.] becomes
    empty, the other [.] go, [..] cancels the segment before it, and a
    final [..] goes with the segment before it. *)
Definition normalize_segments (segments : list string) : list string :=
  let segments :=
    if last segments "" =? "." then set_last "" segments else segments in
  let segments := filter (fun s => negb (s =? ".")) segments in
  let segments := collapse (List.length segments) segments in
  if is_root_parent segments then set_last "" segments
  else if (2 <=? List.length segments)%nat && (last segments "" =? "..")
  then set_last "" (removelast segments)
  else segments.

(** The body of [urljoin(base, url)] from the point where [base] has been
    parsed into [b]. *)
Definition join_parsed (b : ParseResult) (url : string) : res string :=
  u <- urlparse url (scheme b) ;;
  if negb (scheme u =? scheme b) || negb (str_in (scheme u) uses_relative)
  then Ok url
  else if str_in (scheme u) uses_netloc && negb (netloc u =? "")
  then Ok (urlunparse u)
  else
    let netloc' :=
      if str_in (scheme u) uses_netloc then netloc b else netloc u in
    if starts_with "/" (path u)
    then Ok (urlunparse (mkParse (scheme u) netloc' (path u) (params u)
                           (query u) (fragment u)))
    else if (path u =? "") && (params u =? "")
    then Ok (urlunparse (mkParse (scheme u) netloc' (path b) (params b)
                           (if query u =? "" then query b else query u)
                           (fragment u)))
    else
      let segments :=
        (removelast (str_split "/" (path b)) ++ str_split "/" (path u))%list in
      Ok (urlunparse (mkParse (scheme u) netloc'
                        (str_join "/" (normalize_segments segments))
                        (params u) (query u) (fragment u))).

Definition str_tail (s : string) : string :=
  match s with "" => "" | String _ s' => s' end.

(** The [hostname] property of a parse result ([None] as [None]). *)
Definition hostname (p : ParseResult) : option string :=
  let netloc := last (str_split "@" (netloc p)) "" in
  if str_contains "[" netloc && str_contains "]" netloc
  then Some (str_lower (str_tail (hd "" (str_split "]" netloc))))
  else if str_contains ":" netloc
  then Some (str_lower (hd "" (str_split ":" netloc)))
  else if netloc =? "" then None
  else Some (str_lower netloc).

(** The [port] property; [int10] is [int(_, 10)]. *)
Definition port (int10 : string -> res Z) (p : ParseResult)
  : res (option Z) :=
  let netloc :=
    last (str_split "]" (last (str_split "@" (netloc p)) "")) "" in
  if str_contains ":" netloc then
    let port := nth 1 (str_split ":" netloc) "" in
    if negb (port =? "") then
      n <- int10 port ;;
      if (0 <=? n)%Z && (n <=? 65535)%Z then Ok (Some n) else Ok None
    else Ok None
  else Ok None.

End urlparse_py.

(** ** [json.dumps(_, ensure_ascii=False)] *)

Module json_py.

Definition hex_digit (n : nat) : ascii :=
  if (n <? 10)%nat then ascii_of_nat (48 + n) else ascii_of_nat (87 + n).

(** [ESCAPE_DCT]: the replacement of a character of [ESCAPE], and the
    character itself otherwise. *)
Definition escape_char (c : ascii) : string :=
  let n := nat_of_ascii c in
  if Ascii.eqb c "\" then "\\"
  else if (n =? 34)%nat then String "\" (String c "")
  else if (n =? 8)%nat then "\b"
  else if (n =? 12)%nat then "\f"
  else if (n =? 10)%nat then "\n"
  else if (n =? 13)%nat then "\r"
  else if (n =? 9)%nat then "\t"
  else if (n <? 32)%nat
  then "\u00" ++ String (hex_digit (n / 16)) (String (hex_digit (n mod 16)) "")
  else String c "".

Fixpoint escape (s : string) : string :=
  match s with
  | "" => ""
  | String c s' => escape_char c ++ escape s'
  end.

Definition quote : string := String (ascii_of_nat 34) "".

(** [encode_basestring] *)
Definition encode_basestring (s : string) : string :=
  quote ++ escape s ++ quote.

(** [floatstr]; [float_repr] is [float.__repr__]. *)
Definition floatstr (float_repr : float -> string) (f : float) : string :=
  if PrimFloat.is_nan f then "NaN"
  else if PrimFloat.eqb f infinity then "Infinity"
  else if PrimFloat.eqb f neg_infinity then "-Infinity"
  else float_repr f.

Section Dumps.
Variable float_repr : float -> string.

Fixpoint dumps (v : pyval) : string :=
  match v with
  | VNone => "null"
  | VBool true => "true"
  | VBool false => "false"
  | VInt z => str_of_Z z
  | VFloat f => floatstr float_repr f
  | VStr s => encode_basestring s
  | VDict d =>
      "{" ++
      (fix items (d : list (string * pyval)) : string :=
         match d with
         | [] => ""
         | (k, v) :: d' =>
             encode_basestring k ++ ": " ++ dumps v ++
             match d' with
             | [] => ""
             | _ :: _ => ", " ++ items d'
             end
         end) d
      ++ "}"
  end.
End Dumps.

End json_py.

(** ** Numbers: [float(_)] and the comparison of a float with a value *)

(** [float(z)] for an integer: the nearest double, ties to even, and
    [OverflowError] beyond the range. *)
Definition float_of_Z (z : Z) : res float :=
  let f := SF2Prim (binary_normalize prec emax z 0 false) in
  if PrimFloat.is_infinity f then Raise OverflowError else Ok f.

(** [f > z] for a float and an integer, compared as exact numbers. *)
Definition float_gt_Z (f : float) (z : Z) : bool :=
  match Prim2SF f with
  | S754_nan => false
  | S754_infinity s => negb s
  | S754_zero _ => (z <? 0)%Z
  | S754_finite s m e =>
      let m' := if s then Z.neg m else Z.pos m in
      if (0 <=? e)%Z then (z <? m' * 2 ^ e)%Z
      else (z * 2 ^ (- e) <? m')%Z
  end.

(** [f > v] in Python 2: numbers compare by value, [None] is below
    everything, and a number is below a string or a dictionary. *)
Definition float_gt (f : float) (v : pyval) : bool :=
  match v with
  | VFloat g => PrimFloat.ltb g f
  | VInt z => float_gt_Z f z
  | VBool b => float_gt_Z f (if b then 1 else 0)
  | VNone => true
  | VStr _ | VDict _ => false
  end.

(** ** Requests, the crawler and what the run time provides *)

(** Scrapy's [Headers]: each name with the list of its values. *)
Definition Headers := list (string * list string).

Record Request : Type := mkRequest
  { url : string;
    method : string;
    headers : Headers;
    body : string;
    meta : dict }.

Definition with_meta (r : Request) (m : dict) : Request :=
  mkRequest (url r) (method r) (headers r) (body r) m.

(** [str(request)] *)
Definition request_str (r : Request) : string :=
  "<" ++ method r ++ " " ++ url r ++ ">".

(** The crawler's shared objects: the statistics collector and the log. *)
Inductive level : Type := WARNING.

Record World : Type := mkWorld
  { stats : list (string * Z);
    log : list (string * level) }.

(** [crawler.stats.inc_value(key)] *)
Definition inc_value (key : string) (w : World) : World :=
  mkWorld (dict_set key (dict_get_default key 0%Z (stats w) + 1)%Z (stats w))
          (log w).

(** [log.msg(message, level)] *)
Definition log_msg (message : string) (l : level) (w : World) : World :=
  mkWorld (stats w) (log w ++ [(message, l)])%list.

(** What the middleware takes from its surroundings without this
    development looking inside. *)
Record Runtime : Type := mkRuntime
  { (** [crawler.engine.downloader._get_slot_key(request, None)] *)
    downloader_get_slot_key : Request -> pyval;
    (** [w3lib.http.basic_auth_header] *)
    basic_auth_header : pyval -> pyval -> string;
    (** [float.__repr__] of a finite float *)
    float_repr : float -> string;
    (** [float(s)] for a string *)
    float_of_str : string -> res float;
    (** [int(s, 10)] for a string that is not a plain run of digits *)
    int_of_str : string -> res Z;
    (** [str(v)] for a float or a dictionary *)
    str_of_other : pyval -> string }.

Section Middleware.
Variable rt : Runtime.

(** [float(v)] *)
Definition py_float (v : pyval) : res float :=
  match v with
  | VFloat f => Ok f
  | VInt z => float_of_Z z
  | VBool b => Ok (if b then 1%float else 0%float)
  | VStr s => float_of_str rt s
  | VNone | VDict _ => Raise TypeError
  end.

(** [int(s, 10)] *)
Definition py_int10 (s : string) : res Z :=
  if negb (s =? "") && string_forallb is_digit s
  then Ok (digits_value 0 s)
  else int_of_str rt s.

(** ['%s' % v] *)
Definition py_str (v : pyval) : string :=
  match v with
  | VNone => "None"
  | VBool true => "True"
  | VBool false => "False"
  | VInt z => str_of_Z z
  | VStr s => s
  | VFloat _ | VDict _ => str_of_other rt v
  end.

(** A string argument of the [urlparse] functions. *)
Definition url_arg (v : pyval) : res string :=
  match v with
  | VStr s => Ok s
  | VDict _ => Raise TypeError
  | _ => Raise AttributeError
  end.

(** [urljoin(base, url)]: a falsy argument gives the other one back as it
    is; otherwise [base] is parsed, then [url], and the two are joined. *)
Definition urljoin (base url : pyval) : res pyval :=
  if negb (truthy base) then Ok url
  else if negb (truthy url) then Ok base
  else
    base <- url_arg base ;;
    b <- urlparse_py.urlparse base "" ;;
    url <- url_arg url ;;
    r <- urlparse_py.join_parsed b url ;;
    Ok (VStr r).

(** [d.update(other)]: a dictionary is merged in, the empty string has
    no items, a longer string has items of the wrong length, the rest
    cannot be iterated. *)
Definition py_update (d : dict) (other : pyval) : res dict :=
  match other with
  | VDict o => Ok (dict_update d o)
  | VStr s => if s =? "" then Ok d else Raise ValueError
  | _ => Raise TypeError
  end.

(** *** [SlotPolicy] *)

Definition PER_DOMAIN : string := "per_domain".
Definition SINGLE_SLOT : string := "single_slot".
Definition SCRAPY_DEFAULT : string := "scrapy_default".

Definition _known : list string := [PER_DOMAIN; SINGLE_SLOT; SCRAPY_DEFAULT].

(** [v in SlotPolicy._known]: a dictionary cannot be hashed. *)
Definition in_known (v : pyval) : res bool :=
  match v with
  | VStr s => Ok (existsb (String.eqb s) _known)
  | VDict _ => Raise TypeError
  | _ => Ok false
  end.

(** *** [SplashMiddleware] *)

Definition default_splash_url : string := "http://127.0.0.1:8050".
Definition default_endpoint : string := "render.json".
Definition splash_extra_timeout : float := 5%float.
Definition default_policy : string := PER_DOMAIN.

Record SplashMiddleware : Type := mkMiddleware
  { splash_base_url : pyval;
    slot_policy : pyval;
    splash_auth : option string }.

(** [crawler.settings.get(name, default)]: an unset name and a name set
    to [None] give the default. *)
Definition settings_get (name : string) (default : pyval) (settings : dict)
  : pyval :=
  match dict_get name settings with
  | Some VNone | None => default
  | Some v => v
  end.

Definition __init__ (settings : dict) (splash_base_url slot_policy : pyval)
  : SplashMiddleware :=
  let user := settings_get "SPLASH_USER" VNone settings in
  let passwd := settings_get "SPLASH_PASS" (VStr "") settings in
  mkMiddleware splash_base_url slot_policy
    (if truthy user then Some (basic_auth_header rt user passwd) else None).

Definition from_crawler (settings : dict) : res SplashMiddleware :=
  let splash_base_url :=
    settings_get "SPLASH_URL" (VStr default_splash_url) settings in
  let slot_policy :=
    settings_get "SPLASH_SLOT_POLICY" (VStr default_policy) settings in
  known <- in_known slot_policy ;;
  if negb known then Raise (NotConfigured slot_policy)
  else Ok (__init__ settings splash_base_url slot_policy).

Definition _get_slot_key (request : Request) : pyval :=
  downloader_get_slot_key rt request.

Definition _set_download_slot (request : Request) (meta : dict)
    (slot_policy : pyval) : dict :=
  if py_eq_str slot_policy PER_DOMAIN
  then dict_set "download_slot" (_get_slot_key request) meta
  else if py_eq_str slot_policy SINGLE_SLOT
  then dict_set "download_slot" (VStr "__splash__") meta
  else if py_eq_str slot_policy SCRAPY_DEFAULT
  then meta
  else meta.

(** *** [setup_variables_for_proxy_usage] *)

Definition nl : string := String (ascii_of_nat 10) "".
Definition dq : string := json_py.quote.

Fixpoint map_res {A B : Type} (f : A -> res B) (l : list A) : res (list B) :=
  match l with
  | [] => Ok []
  | x :: l' =>
      y <- f x ;;
      ys <- map_res f l' ;;
      Ok (y :: ys)
  end.

(** One entry of the header table: the name and [v[0]]. *)
Definition lua_header (kv : string * list string) : res string :=
  match snd kv with
  | v0 :: _ => Ok ("[" ++ dq ++ fst kv ++ dq ++ "] = " ++ dq ++ v0 ++ dq)
  | [] => Raise IndexError
  end.

Definition headers_as_lua_list (headers : Headers) : res string :=
  splash_headers <- map_res lua_header headers ;;
  Ok (str_join ("," ++ nl) splash_headers).

Definition baseurl_as_lua_str (args : dict) : string :=
  if truthy (dict_get_default "baseurl" VNone args)
  then dq ++ py_str (dict_get_default "baseurl" VNone args) ++ dq
  else "nil".

(** [script % (host, port, headers, baseurl)] *)
Definition script (host port headers baseurl : string) : string :=
  nl ++
  "        function main(splash)" ++ nl ++
  "            splash:on_request(function(request)" ++ nl ++
  "                request:set_proxy{" ++ nl ++
  "                    host = " ++ dq ++ host ++ dq ++ "," ++ nl ++
  "                    port = " ++ port ++ "," ++ nl ++
  "                }" ++ nl ++
  "            end)" ++ nl ++
  nl ++
  "            splash:set_custom_headers({ " ++ headers ++ " })" ++ nl ++
  nl ++
  "            assert(splash:go{splash.args.url, baseurl=" ++ baseurl ++ "})" ++ nl ++
  "            return splash:html()" ++ nl ++
  "        end" ++ nl ++
  "        ".

Definition of_option {A : Type} (f : A -> pyval) (o : option A) : pyval :=
  match o with Some a => f a | None => VNone end.

(** The three dictionaries are the caller's objects; the function
    returns them as it leaves them. *)
Definition setup_variables_for_proxy_usage
    (args meta splash_options : dict) (headers : Headers)
  : res (dict * dict * dict) :=
  proxy <- match dict_get "proxy" meta with
           | Some v => Ok v
           | None => Raise KeyError
           end ;;
  proxy_url <- url_arg proxy ;;
  parsed_proxy_url <- urlparse_py.urlparse proxy_url "" ;;
  let host := of_option VStr (urlparse_py.hostname parsed_proxy_url) in
  port <- urlparse_py.port py_int10 parsed_proxy_url ;;
  let port := of_option VInt port in
  lua_headers <- headers_as_lua_list headers ;;
  let args :=
    dict_set "lua_source"
      (VStr (script (py_str host) (py_str port) lua_headers
               (baseurl_as_lua_str args)))
      args in
  let splash_options := dict_set "endpoint" (VStr "execute") splash_options in
  let meta := dict_del "proxy" meta in
  Ok (args, splash_options, meta).

(** *** [process_request] *)

(** What [process_request] hands back to the downloader. *)
Inductive Returned : Type :=
| ReturnNone
| ReturnRequest
| ReturnReplaced (req_rep : Request).

Definition GET_only_warning (request : Request) : string :=
  "Currently only GET requests are supported by SplashMiddleware; "
  ++ request_str request ++ " will be handled without Splash".

(** The timeout block: [meta] with [download_timeout] raised when the
    explicit Splash timeout asks for more. *)
Definition reconcile_timeout (args meta : dict) : res dict :=
  match dict_get "timeout" args with
  | Some timeout =>
      let timeout_current :=
        dict_get_default "download_timeout" (VFloat 1e6) meta in
      t <- py_float timeout ;;
      let timeout_expected := PrimFloat.add t splash_extra_timeout in
      if float_gt timeout_expected timeout_current
      then Ok (dict_set "download_timeout" (VFloat timeout_expected) meta)
      else Ok meta
  | None => Ok meta
  end.

(** The result is what is returned, [request.meta] as the call leaves it
    (the dictionary is changed in place) and the crawler's objects.

    [splash_options] is the object stored under [_splash_processed] and
    [args] the one stored under its [args] key: what the method writes to
    them is seen through [request.meta].  Nothing reads them through
    [meta] before [meta.copy()], so the model keeps them in variables and
    stores them back there. *)
Definition process_request (self : SplashMiddleware) (request : Request)
    (w : World) : res (Returned * dict * World) :=
  let splash_options := dict_get_default "splash" VNone (meta request) in
  if negb (truthy splash_options) then Ok (ReturnNone, meta request, w)
  else if negb (method request =? "GET")
  then Ok (ReturnRequest, meta request,
           log_msg (GET_only_warning request) WARNING w)
  else
    let meta := dict_del "splash" (meta request) in
    let meta := dict_set "_splash_processed" splash_options meta in
    splash_options <- as_dict AttributeError splash_options ;;
    let slot_policy :=
      dict_get_default "slot_policy" (slot_policy self) splash_options in
    let meta :=
      _set_download_slot (with_meta request meta) meta slot_policy in
    let (args, splash_options) :=
      dict_setdefault "args" (VDict []) splash_options in
    args <- as_dict AttributeError args ;;
    let args := snd (dict_setdefault "url" (VStr (url request)) args) in
    '(args, splash_options, meta) <-
       (if truthy (dict_get_default "proxy" VNone meta)
        then setup_variables_for_proxy_usage args meta splash_options
               (headers request)
        else Ok (args, splash_options, meta)) ;;
    let body := json_py.dumps (float_repr rt) (VDict args) in
    meta <- reconcile_timeout args meta ;;
    let (endpoint, splash_options) :=
      dict_setdefault "endpoint" (VStr default_endpoint) splash_options in
    let splash_base_url :=
      dict_get_default "splash_url" (splash_base_url self) splash_options in
    splash_url <- urljoin splash_base_url endpoint ;;
    let splash_options := dict_set "args" (VDict args) splash_options in
    let meta := dict_set "_splash_processed" (VDict splash_options) meta in
    splash_meta <-
      py_update meta (dict_get_default "meta" (VDict []) splash_options) ;;
    splash_url <- as_str TypeError splash_url ;;
    let req_rep :=
      mkRequest splash_url "POST"
        (match splash_auth self with
         | Some auth =>
             if auth =? "" then [("Content-Type", ["application/json"])]
             else [("Content-Type", ["application/json"]);
                   ("Authorization", [auth])]
         | None => [("Content-Type", ["application/json"])]
         end)
        body splash_meta in
    let w := inc_value ("splash/" ++ py_str endpoint ++ "/request_count") w in
    Ok (ReturnReplaced req_rep, meta, w).

(** *** Names for what [process_request] goes through *)

(** The rendering-options attachment, [request.meta.get('splash')]. *)
Definition attachment (request : Request) : pyval :=
  dict_get_default "splash" VNone (meta request).

(** The [args] and the [meta] overrides the caller put in the options. *)
Definition caller_args (opts : dict) : dict :=
  match dict_get "args" opts with Some (VDict a) => a | _ => [] end.

Definition meta_overrides (opts : dict) : dict :=
  match dict_get "meta" opts with Some (VDict o) => o | _ => [] end.

(** [request.meta] once the attachment has moved under the marker. *)
Definition marked (request : Request) (opts : dict) : dict :=
  dict_set "_splash_processed" (VDict opts)
    (dict_del "splash" (meta request)).

(** ... and once the slot policy has been applied. *)
Definition slotted (self : SplashMiddleware) (request : Request)
    (opts : dict) : dict :=
  _set_download_slot (with_meta request (marked request opts))
    (marked request opts)
    (dict_get_default "slot_policy" (slot_policy self) opts).

(** The proxy branch, on [args], the options and the metadata. *)
Definition proxy_step (args opts meta : dict) (hs : Headers)
  : res (dict * dict * dict) :=
  if truthy (dict_get_default "proxy" VNone meta)
  then setup_variables_for_proxy_usage args meta opts hs
  else Ok (args, opts, meta).

Definition resolved_endpoint (opts : dict) : pyval :=
  fst (dict_setdefault "endpoint" (VStr default_endpoint) opts).

Definition resolved_base_url (self : SplashMiddleware) (opts : dict)
  : pyval :=
  dict_get_default "splash_url" (splash_base_url self)
    (snd (dict_setdefault "endpoint" (VStr default_endpoint) opts)).

(** The options as [process_request] leaves them under the marker. *)
Definition final_options (args opts : dict) : dict :=
  dict_set "args" (VDict args)
    (snd (dict_setdefault "endpoint" (VStr default_endpoint) opts)).

(** The headers of a rewritten request. *)
Definition json_headers (self : SplashMiddleware) : Headers :=
  match splash_auth self with
  | Some auth =>
      if auth =? "" then [("Content-Type", ["application/json"])]
      else [("Content-Type", ["application/json"]);
            ("Authorization", [auth])]
  | None => [("Content-Type", ["application/json"])]
  end.

(** A run of [process_request] that rewrites [request] into [r]: the
    attachment [opts0], the caller's [args0], then [args], [opts] and
    [meta2] after the proxy branch and [meta3] after the timeout block. *)
Record rewrite_trace (self : SplashMiddleware) (request : Request)
    (w : World) (r : Request) (m : dict) (w' : World)
    (opts0 args0 args opts meta2 meta3 : dict) : Prop :=
  { tr_method : method request = "GET";
    tr_attachment : dict_get "splash" (meta request) = Some (VDict opts0);
    tr_nonempty : opts0 <> [];
    tr_args0 : fst (dict_setdefault "args" (VDict []) opts0) = VDict args0;
    tr_proxy :
      proxy_step (snd (dict_setdefault "url" (VStr (url request)) args0))
        (snd (dict_setdefault "args" (VDict []) opts0))
        (slotted self request opts0) (headers request)
      = Ok (args, opts, meta2);
    tr_timeout : reconcile_timeout args meta2 = Ok meta3;
    tr_url :
      urljoin (resolved_base_url self opts) (resolved_endpoint opts)
      = Ok (VStr (url r));
    tr_meta :
      m = dict_set "_splash_processed" (VDict (final_options args opts))
            meta3;
    tr_overlay :
      py_update m
        (dict_get_default "meta" (VDict []) (final_options args opts))
      = Ok (meta r);
    tr_post : method r = "POST";
    tr_headers : headers r = json_headers self;
    tr_body : body r = json_py.dumps (float_repr rt) (VDict args);
    tr_world :
      w' = inc_value
             ("splash/" ++ py_str (resolved_endpoint opts)
              ++ "/request_count") w }.
(** *** [process_response] *)

(** A response: its status code and its body. *)
Record Response : Type := mkResponse
  { status : Z;
    response_body : string }.

(** [v[k]] for a string key: a dictionary looks the key up, the other
    values cannot be indexed by a string. *)
Definition getitem (v : pyval) (k : string) : res pyval :=
  match v with
  | VDict d =>
      match dict_get k d with
      | Some x => Ok x
      | None => Raise KeyError
      end
  | _ => Raise TypeError
  end.

(** The result is the response handed on and the crawler's objects. *)
Definition process_response (self : SplashMiddleware) (request : Request)
    (response : Response) (w : World) : res (Response * World) :=
  let splash_options :=
    dict_get_default "_splash_processed" VNone (meta request) in
  if truthy splash_options then
    endpoint <- getitem splash_options "endpoint" ;;
    Ok (response,
        inc_value
          ("splash/" ++ py_str endpoint ++ "/response_count/"
           ++ str_of_Z (status response)) w)
  else Ok (response, w).

(** The endpoint a rewrite of [request] with options [opts] goes to. *)
Definition endpoint_of (request : Request) (opts : dict) : pyval :=
  if truthy (dict_get_default "proxy" VNone (meta request))
  then VStr "execute"
  else dict_get_default "endpoint" (VStr default_endpoint) opts.

(** The policy a rewrite of a request with options [opts] applies. *)
Definition policy_of (self : SplashMiddleware) (opts : dict) : pyval :=
  dict_get_default "slot_policy" (slot_policy self) opts.
End Middleware.

(** ** Base URLs and endpoint names on which [urljoin] is concatenation *)



(** ** A run time and requests to evaluate the middleware on *)

Module Sample.

(** The slot key Scrapy's downloader gives: the key already in the
    metadata, and the host name of the request otherwise.  The other
    components are constants: no sample below reaches them. *)
Definition runtime : Runtime :=
  mkRuntime
    (fun request =>
       match dict_get "download_slot" (meta request) with
       | Some v => v
       | None =>
           match urlparse_py.urlparse (url request) "" with
           | Ok p => VStr (match urlparse_py.hostname p with
                           | Some h => h
                           | None => ""
                           end)
           | Raise _ => VStr ""
           end
       end)
    (fun _ _ => "Basic dXNlcjpwYXNz")
    (fun _ => "0.0")
    (fun _ => Raise ValueError)
    (fun _ => Raise ValueError)
    (fun _ => "").

Definition world : World := mkWorld [] [].

(** The middleware as [from_crawler] builds it from empty settings. *)
Definition middleware : SplashMiddleware :=
  mkMiddleware (VStr default_splash_url) (VStr default_policy) None.

(** The same with a trailing slash on [SPLASH_URL]. *)
Definition middleware_slash : SplashMiddleware :=
  mkMiddleware (VStr "http://127.0.0.1:8050/") (VStr default_policy) None.

Definition get (meta : dict) : Request :=
  mkRequest "http://example.com/page" "GET"
    [("User-Agent", ["Scrapy"; "other"]); ("Accept", ["text/html"])] "" meta.

(** Options [{'args': {}}]. *)
Definition req_plain : Request :=
  get [("splash", VDict [("args", VDict [])])].

(** Options whose [meta] overrides carry an attachment of their own. *)
Definition req_override : Request :=
  get [("splash",
        VDict [("meta", VDict [("splash", VDict [("args", VDict [])])])])].

(** An explicit Splash timeout of 10 with [download_timeout] 5, and 20. *)
Definition req_timeout (current : pyval) : Request :=
  get [("splash", VDict [("args", VDict [("timeout", VInt 10)])]);
       ("download_timeout", current)].

(** A proxy directive. *)
Definition req_proxy : Request :=
  get [("splash", VDict [("args", VDict [])]);
       ("proxy", VStr "http://Proxy.Example.com:3128")].

(** A [POST] with options. *)
Definition req_post : Request :=
  mkRequest "http://example.com/form" "POST" [] "a=1"
    [("splash", VDict [("args", VDict [])])].

(** An empty attachment. *)
Definition req_empty : Request := get [("splash", VDict [])].


(** A response with status 200. *)
Definition response_ok : Response := mkResponse 200 "{}".

(** Settings with credentials. *)
Definition settings_auth : dict :=
  [("SPLASH_USER", VStr "user"); ("SPLASH_PASS", VStr "pass")].

(** A request for one shared slot, over a middleware for per-domain
    slots. *)
Definition req_single_slot : Request :=
  get [("splash", VDict [("slot_policy", VStr "single_slot")])].

(** Options that are not a dictionary, and [args] that are not one. *)
Definition req_bad_options : Request := get [("splash", VBool true)].

Definition req_bad_args : Request :=
  get [("splash", VDict [("args", VInt 1)])].

(** A timeout that is not a number, a proxy that is not a string, and
    [meta] overrides that are not a dictionary. *)
Definition req_bad_timeout : Request :=
  get [("splash", VDict [("args", VDict [("timeout", VNone)])])].

Definition req_bad_proxy : Request :=
  get [("splash", VDict [("args", VDict [])]); ("proxy", VInt 1)].

Definition req_bad_overrides : Request :=
  get [("splash", VDict [("meta", VInt 1)])].

(** Metadata of the caller's own, and overrides for the rewritten
    request. *)
Definition req_meta : Request :=
  get [("splash",
        VDict [("meta", VDict [("dont_retry", VBool true)])]);
       ("cookiejar", VInt 3)].

End Sample.

(** ** Facts about dictionaries *)

Section DictFacts.
Context {V : Type}.
Implicit Types (d o : list (string * V)) (k : string) (v : V).

Lemma dict_get_set_eq k v d : dict_get k (dict_set k v d) = Some v.
Proof.
  induction d as [|[k' v'] d IH]; simpl.
  - now rewrite String.eqb_refl.
  - destruct (k' =? k) eqn:E; simpl; rewrite E; auto.
Qed.

Lemma dict_get_set_neq k k' v d :
  (k =? k') = false -> dict_get k' (dict_set k v d) = dict_get k' d.
Proof.
  intros N. induction d as [|[k0 v0] d IH]; simpl.
  - now rewrite N.
  - destruct (k0 =? k) eqn:E; simpl.
    + apply String.eqb_eq in E. subst k0. now rewrite N.
    + now rewrite IH.
Qed.

Lemma dict_get_del_eq k d : dict_get k (dict_del k d) = None.
Proof.
  induction d as [|[k' v'] d IH]; simpl; auto.
  destruct (k' =? k) eqn:E; simpl; auto. now rewrite E.
Qed.

Lemma dict_get_del_neq k k' d :
  (k =? k') = false -> dict_get k' (dict_del k d) = dict_get k' d.
Proof.
  intros N. induction d as [|[k0 v0] d IH]; simpl; auto.
  destruct (k0 =? k) eqn:E; simpl.
  - apply String.eqb_eq in E. subst k0. now rewrite N.
  - now rewrite IH.
Qed.

Lemma dict_get_setdefault_neq k k' v d :
  (k =? k') = false ->
  dict_get k' (snd (dict_setdefault k v d)) = dict_get k' d.
Proof.
  intros N. unfold dict_setdefault.
  destruct (dict_get k d); simpl; auto using dict_get_set_neq.
Qed.

Lemma dict_get_setdefault_eq k v d :
  dict_get k (snd (dict_setdefault k v d))
  = Some (fst (dict_setdefault k v d)).
Proof.
  unfold dict_setdefault.
  destruct (dict_get k d) eqn:E; simpl; auto using dict_get_set_eq.
Qed.

Lemma dict_has_update k d o :
  dict_has k (dict_update d o) = dict_has k o || dict_has k d.
Proof.
  unfold dict_update, dict_has.
  revert d. induction o as [|[k0 v0] o IH]; intros d; simpl; auto.
  rewrite IH. destruct (k0 =? k) eqn:E.
  - apply String.eqb_eq in E. subst k0.
    rewrite dict_get_set_eq. now rewrite orb_true_r.
  - now rewrite dict_get_set_neq.
Qed.

Lemma dict_get_update_absent k d o :
  dict_get k o = None -> dict_get k (dict_update d o) = dict_get k d.
Proof.
  unfold dict_update.
  revert d. induction o as [|[k0 v0] o IH]; intros d; simpl; auto.
  destruct (k0 =? k) eqn:E; [discriminate|].
  intros A. rewrite IH by assumption. now apply dict_get_set_neq.
Qed.
Lemma dict_get_absent k o : ~ In k (map fst o) -> dict_get k o = None.
Proof.
  induction o as [|[k0 v0] o IH]; simpl; auto.
  intros N. destruct (k0 =? k) eqn:E.
  - apply String.eqb_eq in E. tauto.
  - apply IH. tauto.
Qed.

(** With distinct keys in [o], [d.update(o)] holds what [o] holds. *)
Lemma dict_get_update_present k v d o :
  NoDup (map fst o) -> dict_get k o = Some v ->
  dict_get k (dict_update d o) = Some v.
Proof.
  unfold dict_update. revert d.
  induction o as [|[k0 v0] o IH]; intros d; simpl; [discriminate|].
  intros N. inversion N as [|? ? N1 N2]; subst.
  destruct (k0 =? k) eqn:E.
  - apply String.eqb_eq in E. subst k0. intros [= ->].
    change (dict_get k (dict_update (dict_set k v d) o) = Some v).
    rewrite dict_get_update_absent by now apply dict_get_absent.
    apply dict_get_set_eq.
  - intros H. now apply IH.
Qed.
End DictFacts.

(** ** Facts about the exception monad *)

Lemma bind_Ok {A B : Type} (m : res A) (k : A -> res B) (b : B) :
  bind m k = Ok b <-> exists a, m = Ok a /\ k a = Ok b.
Proof.
  destruct m as [a|e]; simpl; split.
  - intros H. now exists a.
  - now intros (a' & [= ->] & H).
  - discriminate.
  - now intros (a' & [=] & _).
Qed.

Lemma as_dict_Ok e v d : as_dict e v = Ok d <-> v = VDict d.
Proof. destruct v; simpl; split; intros H; inversion H; reflexivity. Qed.

Lemma as_str_Ok e v s : as_str e v = Ok s <-> v = VStr s.
Proof. destruct v; simpl; split; intros H; inversion H; reflexivity. Qed.

(** ** Facts about strings and [urljoin] *)

Section UrlFacts.
Import urlparse_py.







End UrlFacts.

(** ** Properties of the middleware *)

Ltac dict_step :=
  first [ rewrite dict_get_set_eq
        | rewrite dict_get_set_neq by reflexivity
        | rewrite dict_get_del_eq
        | rewrite dict_get_del_neq by reflexivity
        | rewrite dict_get_setdefault_neq by reflexivity ].

Section Properties.
Variable rt : Runtime.

(** [process_request] rewrites exactly along a [rewrite_trace]. *)
Lemma process_request_replaced self request w r m w' :
  process_request rt self request w = Ok (ReturnReplaced r, m, w') <->
  exists opts0 args0 args opts meta2 meta3,
    rewrite_trace rt self request w r m w' opts0 args0 args opts meta2 meta3.
Proof.
  unfold process_request. split.
  - intros H.
    remember (dict_get_default "splash" VNone (meta request)) as att eqn:Eatt.
    destruct (truthy att) eqn:T; cbn [negb] in H; [|discriminate].
    destruct (method request =? "GET") eqn:G; cbn [negb] in H; [|discriminate].
    apply String.eqb_eq in G.
    apply bind_Ok in H. destruct H as (opts0 & Ho & H).
    apply as_dict_Ok in Ho. rewrite Ho in *. clear Ho att.
    destruct (dict_setdefault "args" (VDict []) opts0) as [a o1] eqn:SA.
    apply bind_Ok in H. destruct H as (args0 & Ha & H).
    apply as_dict_Ok in Ha. subst a.
    apply bind_Ok in H. destruct H as ([[args opts] meta2] & Hp & H).
    apply bind_Ok in H. destruct H as (meta3 & Ht & H).
    destruct (dict_setdefault "endpoint" (VStr default_endpoint) opts)
      as [ep o3] eqn:SE.
    apply bind_Ok in H. destruct H as (su & Hu & H).
    apply bind_Ok in H. destruct H as (sm & Hm & H).
    apply bind_Ok in H. destruct H as (us & Hs & H).
    apply as_str_Ok in Hs. subst su.
    injection H as <- <- <-.
    exists opts0, args0, args, opts, meta2, meta3.
    unfold dict_get_default in Eatt.
    destruct (dict_get "splash" (meta request)) as [v|] eqn:S; [|discriminate].
    subst v.
    split; unfold resolved_base_url, resolved_endpoint, final_options,
      slotted, marked, proxy_step; rewrite ?SA, ?SE; cbn [fst snd];
      auto.
    intros ->. discriminate.
  - intros (opts0 & args0 & args & opts & meta2 & meta3
            & [T1 T2 T3 T4 T5 T6 T7 T8 T9 T10 T11 T12 T13]).
    assert (E : dict_get_default "splash" VNone (meta request) = VDict opts0)
      by (unfold dict_get_default; now rewrite T2).
    rewrite !E.
    replace (truthy (VDict opts0)) with true
      by (destruct opts0; [congruence|reflexivity]).
    rewrite T1. change ("GET" =? "GET") with true. cbn [negb as_dict bind].
    destruct (dict_setdefault "args" (VDict []) opts0) as [a o1] eqn:SA.
    cbn [fst snd] in *. subst a. cbn [as_dict bind].
    match goal with
    | |- bind ?x _ = _ =>
        replace x with (Ok (args, opts, meta2)) by (symmetry; exact T5)
    end.
    cbn [bind].
    rewrite T6. cbn [bind].
    unfold resolved_base_url, resolved_endpoint, final_options in *.
    destruct (dict_setdefault "endpoint" (VStr default_endpoint) opts)
      as [ep o3] eqn:SE. cbn [fst snd] in *.
    rewrite T7. cbn [bind]. subst m. rewrite T9. cbn [bind as_str].
    destruct r as [u me h b mt]. cbn [url method headers body meta] in *.
    subst. reflexivity.
Qed.

(** The slot policy writes [download_slot] and nothing else. *)
Lemma _set_download_slot_other k request meta policy :
  (k =? "download_slot") = false ->
  dict_get k (_set_download_slot rt request meta policy) = dict_get k meta.
Proof.
  intros N. rewrite String.eqb_sym in N. unfold _set_download_slot.
  destruct (py_eq_str policy PER_DOMAIN);
    [|destruct (py_eq_str policy SINGLE_SLOT);
      [|destruct (py_eq_str policy SCRAPY_DEFAULT)]];
    auto using dict_get_set_neq.
Qed.

Lemma marked_attachment request opts :
  dict_get "splash" (marked request opts) = None.
Proof. unfold marked. now repeat dict_step. Qed.

Lemma marked_other k request opts :
  (k =? "splash") = false -> (k =? "_splash_processed") = false ->
  dict_get k (marked request opts) = dict_get k (meta request).
Proof.
  intros N1 N2. rewrite String.eqb_sym in N1, N2. unfold marked.
  now rewrite dict_get_set_neq, dict_get_del_neq.
Qed.

Lemma slotted_other k self request opts :
  (k =? "splash") = false -> (k =? "_splash_processed") = false ->
  (k =? "download_slot") = false ->
  dict_get k (slotted rt self request opts) = dict_get k (meta request).
Proof.
  intros. unfold slotted.
  now rewrite _set_download_slot_other, marked_other.
Qed.

(** What the proxy branch does when it returns. *)
Lemma proxy_step_Ok args opts meta hs args' opts' meta' :
  proxy_step rt args opts meta hs = Ok (args', opts', meta') ->
  (truthy (dict_get_default "proxy" VNone meta) = false
   /\ args' = args /\ opts' = opts /\ meta' = meta)
  \/ (truthy (dict_get_default "proxy" VNone meta) = true
      /\ exists proxy_url parsed port lua_headers,
          dict_get "proxy" meta = Some (VStr proxy_url)
          /\ urlparse_py.urlparse proxy_url "" = Ok parsed
          /\ urlparse_py.port (py_int10 rt) parsed = Ok port
          /\ headers_as_lua_list hs = Ok lua_headers
          /\ args' = dict_set "lua_source"
                       (VStr (script
                                (py_str rt (of_option VStr (urlparse_py.hostname parsed)))
                                (py_str rt (of_option VInt port))
                                lua_headers (baseurl_as_lua_str rt args)))
                       args
          /\ opts' = dict_set "endpoint" (VStr "execute") opts
          /\ meta' = dict_del "proxy" meta).
Proof.
  unfold proxy_step.
  destruct (truthy (dict_get_default "proxy" VNone meta)) eqn:T.
  - intros H. right. split; auto.
    unfold setup_variables_for_proxy_usage in H.
    apply bind_Ok in H. destruct H as (pv & Hp & H).
    apply bind_Ok in H. destruct H as (purl & Hu & H).
    apply bind_Ok in H. destruct H as (parsed & Hparse & H).
    apply bind_Ok in H. destruct H as (port & Hport & H).
    apply bind_Ok in H. destruct H as (lh & Hl & H).
    injection H as <- <- <-.
    exists purl, parsed, port, lh.
    destruct (dict_get "proxy" meta) as [v|]; [|discriminate].
    injection Hp as ->.
    destruct pv; try discriminate. injection Hu as ->.
    repeat split; auto.
  - intros [= <- <- <-]. left. auto.
Qed.

Lemma proxy_step_args k args opts meta hs args' opts' meta' :
  proxy_step rt args opts meta hs = Ok (args', opts', meta') ->
  (k =? "lua_source") = false -> dict_get k args' = dict_get k args.
Proof.
  intros H N. rewrite String.eqb_sym in N.
  apply proxy_step_Ok in H.
  destruct H as [(_ & -> & _)|(_ & ? & ? & ? & ? & _ & _ & _ & _ & -> & _)];
    auto using dict_get_set_neq.
Qed.

Lemma proxy_step_opts k args opts meta hs args' opts' meta' :
  proxy_step rt args opts meta hs = Ok (args', opts', meta') ->
  (k =? "endpoint") = false -> dict_get k opts' = dict_get k opts.
Proof.
  intros H N. rewrite String.eqb_sym in N.
  apply proxy_step_Ok in H.
  destruct H as [(_ & _ & -> & _)|(_ & ? & ? & ? & ? & _ & _ & _ & _ & _ & -> & _)];
    auto using dict_get_set_neq.
Qed.

Lemma proxy_step_meta k args opts meta hs args' opts' meta' :
  proxy_step rt args opts meta hs = Ok (args', opts', meta') ->
  (k =? "proxy") = false -> dict_get k meta' = dict_get k meta.
Proof.
  intros H N. rewrite String.eqb_sym in N.
  apply proxy_step_Ok in H.
  destruct H as [(_ & _ & _ & ->)|(_ & ? & ? & ? & ? & _ & _ & _ & _ & _ & _ & ->)];
    auto using dict_get_del_neq.
Qed.

(** What the timeout block does when it returns. *)
Lemma reconcile_timeout_Ok args meta meta' :
  reconcile_timeout rt args meta = Ok meta' ->
  match dict_get "timeout" args with
  | None => meta' = meta
  | Some timeout =>
      exists t, py_float rt timeout = Ok t
        /\ meta' =
             if float_gt (PrimFloat.add t splash_extra_timeout)
                  (dict_get_default "download_timeout" (VFloat 1e6) meta)
             then dict_set "download_timeout"
                    (VFloat (PrimFloat.add t splash_extra_timeout)) meta
             else meta
  end.
Proof.
  unfold reconcile_timeout.
  destruct (dict_get "timeout" args) as [tv|]; [|congruence].
  intros H. apply bind_Ok in H. destruct H as (t & Ht & H).
  exists t. split; auto.
  destruct (float_gt _ _); congruence.
Qed.

Lemma reconcile_timeout_other k args meta meta' :
  reconcile_timeout rt args meta = Ok meta' ->
  (k =? "download_timeout") = false -> dict_get k meta' = dict_get k meta.
Proof.
  intros H N. rewrite String.eqb_sym in N.
  apply reconcile_timeout_Ok in H.
  destruct (dict_get "timeout" args); [|now subst].
  destruct H as (t & _ & ->).
  destruct (float_gt _ _); auto using dict_get_set_neq.
Qed.

(** What merging the overrides does when it returns. *)
Lemma py_update_Ok d other d' :
  py_update d other = Ok d' ->
  (exists o, other = VDict o /\ d' = dict_update d o)
  \/ (other = VStr "" /\ d' = d).
Proof.
  destruct other; simpl; try discriminate.
  - destruct (s =? "") eqn:E; [|discriminate].
    apply String.eqb_eq in E. subst s. intros [= <-]. now right.
  - intros [= <-]. left. now exists d0.
Qed.

(** The caller's [args] are the [args] the method starts from. *)
Lemma caller_args_setdefault opts args0 :
  fst (dict_setdefault "args" (VDict []) opts) = VDict args0 ->
  caller_args opts = args0.
Proof.
  unfold dict_setdefault, caller_args.
  destruct (dict_get "args" opts) as [v|]; simpl.
  - now intros ->.
  - now intros [= <-].
Qed.

(** The options keep the caller's keys other than [args] and [endpoint]. *)
Lemma final_options_other k request args0 opts0 self args opts meta2 :
  proxy_step rt args0 (snd (dict_setdefault "args" (VDict []) opts0))
    (slotted rt self request opts0) (headers request)
  = Ok (args, opts, meta2) ->
  (k =? "args") = false -> (k =? "endpoint") = false ->
  dict_get k (final_options args opts) = dict_get k opts0.
Proof.
  intros H N1 N2. unfold final_options.
  rewrite String.eqb_sym in N1. 
  rewrite dict_get_set_neq by assumption.
  rewrite String.eqb_sym in N2.
  rewrite dict_get_setdefault_neq by assumption.
  rewrite String.eqb_sym in N2.
  rewrite (proxy_step_opts _ _ _ _ _ _ _ _ H) by assumption.
  now rewrite dict_get_setdefault_neq.
Qed.

(** A request that is not a [GET] is never rewritten: it is handed back
    with a warning when it has an attachment, and passed on otherwise. *)
Lemma process_request_not_GET self request w :
  method request <> "GET" ->
  process_request rt self request w
  = Ok (if truthy (attachment request)
        then (ReturnRequest, meta request,
              log_msg (GET_only_warning request) WARNING w)
        else (ReturnNone, meta request, w)).
Proof.
  intros N. unfold process_request, attachment.
  destruct (truthy _); cbn [negb]; auto.
  destruct (method request =? "GET") eqn:E; cbn [negb]; auto.
  now apply String.eqb_eq in E.
Qed.

(** C6. A request with a rendering-options attachment whose method is not
    GET is handed back as it is: [process_request] returns the request
    itself, its metadata is unchanged, one warning is logged and the
    statistics are unchanged. *)
Theorem non_GET_is_passed_through self request w :
  truthy (attachment request) = true ->
  method request <> "GET" ->
  exists w',
    process_request rt self request w = Ok (ReturnRequest, meta request, w')
    /\ log w' = (log w ++ [(GET_only_warning request, WARNING)])%list
    /\ stats w' = stats w.
Proof.
  intros T N. rewrite process_request_not_GET by assumption. rewrite T.
  eexists. split; [reflexivity|]. split; reflexivity.
Qed.

(** C8. A request whose attachment is present but falsy (the empty
    mapping in particular) is passed on: [process_request] returns [None],
    and the metadata, the log and the statistics are unchanged. *)
Theorem empty_attachment_is_passed_through self request w v :
  dict_get "splash" (meta request) = Some v ->
  truthy v = false ->
  process_request rt self request w = Ok (ReturnNone, meta request, w).
Proof.
  intros S T. unfold process_request, dict_get_default.
  rewrite S, T. reflexivity.
Qed.

(** C4. A configured policy name outside [SlotPolicy._known] makes
    [from_crawler] raise [NotConfigured]; a known name makes it return the
    middleware with that policy.  [from_crawler] takes the settings only:
    no request, log or statistics are involved. *)
Theorem from_crawler_checks_policy settings name :
  dict_get "SPLASH_SLOT_POLICY" settings = Some (VStr name) ->
  (In name _known ->
   exists mw, from_crawler rt settings = Ok mw /\ slot_policy mw = VStr name)
  /\ (~ In name _known ->
      from_crawler rt settings = Raise (NotConfigured (VStr name))).
Proof.
  intros S. unfold from_crawler.
  assert (P : settings_get "SPLASH_SLOT_POLICY" (VStr default_policy) settings
              = VStr name) by (unfold settings_get; now rewrite S).
  rewrite !P. cbn [in_known bind].
  assert (E : existsb (String.eqb name) _known = true <-> In name _known).
  { rewrite existsb_exists. split.
    - intros (x & I & Hx). apply String.eqb_eq in Hx. now subst.
    - intros I. exists name. split; auto. apply String.eqb_refl. }
  split.
  - intros I. apply E in I. rewrite I. cbn [negb].
    eexists. split; reflexivity.
  - intros I. destruct (existsb _ _) eqn:X; cbn [negb]; auto.
    exfalso. apply I, E. reflexivity.
Qed.

(** C10. In the header table of the proxy script each header gives one
    entry, made of its name and its first value: the values after the
    first do not occur in it. *)
Theorem headers_as_lua_list_first_values (hs : list (string * string * list string)) :
  headers_as_lua_list
    (map (fun h => (fst (fst h), snd (fst h) :: snd h)) hs)
  = Ok (str_join ("," ++ nl)
          (map (fun h => "[" ++ dq ++ fst (fst h) ++ dq ++ "] = "
                         ++ dq ++ snd (fst h) ++ dq) hs))
  /\ headers_as_lua_list
       (map (fun h => (fst (fst h), snd (fst h) :: snd h)) hs)
     = headers_as_lua_list (map (fun h => (fst (fst h), [snd (fst h)])) hs).
Proof.
  unfold headers_as_lua_list.
  assert (E : forall f : string * string * list string -> list string,
             (forall h, exists rest, f h = snd (fst h) :: rest) ->
             map_res lua_header (map (fun h => (fst (fst h), f h)) hs)
             = Ok (map (fun h => "[" ++ dq ++ fst (fst h) ++ dq ++ "] = "
                                 ++ dq ++ snd (fst h) ++ dq) hs)).
  { intros f Hf. induction hs as [|h hs' IH]; [reflexivity|].
    cbn [map map_res]. unfold lua_header at 1. cbn [fst snd].
    destruct (Hf h) as (rest & ->). cbn [bind]. now rewrite IH. }
  rewrite (E (fun h => snd (fst h) :: snd h)) by (intros h; now exists (snd h)).
  rewrite (E (fun h => [snd (fst h)])) by (intros h; now exists []).
  split; reflexivity.
Qed.

(** The metadata a rewrite leaves on the original request: the marker
    holds the final options, the attachment is gone, and the keys the
    method does not own are as the caller set them. *)
Lemma trace_meta self request w r m w' opts0 args0 args opts meta2 meta3 :
  rewrite_trace rt self request w r m w' opts0 args0 args opts meta2 meta3 ->
  dict_get "_splash_processed" m = Some (VDict (final_options args opts))
  /\ dict_get "splash" m = None
  /\ (forall k, (k =? "_splash_processed") = false ->
                (k =? "download_timeout") = false ->
                (k =? "proxy") = false ->
                (k =? "splash") = false ->
                (k =? "download_slot") = false ->
                dict_get k m = dict_get k (meta request)).
Proof.
  intros [T1 T2 T3 T4 T5 T6 T7 T8 T9 T10 T11 T12 T13]. subst m.
  split; [apply dict_get_set_eq|]. split.
  - rewrite dict_get_set_neq by reflexivity.
    rewrite (reconcile_timeout_other _ _ _ _ T6) by reflexivity.
    rewrite (proxy_step_meta _ _ _ _ _ _ _ _ T5) by reflexivity.
    unfold slotted. rewrite _set_download_slot_other by reflexivity.
    apply marked_attachment.
  - intros k N1 N2 N3 N4 N5.
    rewrite dict_get_set_neq by (now rewrite String.eqb_sym).
    rewrite (reconcile_timeout_other _ _ _ _ T6) by assumption.
    rewrite (proxy_step_meta _ _ _ _ _ _ _ _ T5) by assumption.
    now apply slotted_other.
Qed.

(** The metadata of the rewritten request: the overrides of the options
    laid over the metadata of the original. *)
Lemma trace_overrides self request w r m w' opts0 args0 args opts meta2 meta3 :
  rewrite_trace rt self request w r m w' opts0 args0 args opts meta2 meta3 ->
  (forall k, dict_get k (meta_overrides opts0) = None ->
             dict_get k (meta r) = dict_get k m)
  /\ (forall k, dict_has k (meta r)
                = dict_has k (meta_overrides opts0) || dict_has k m).
Proof.
  intros [T1 T2 T3 T4 T5 T6 T7 T8 T9 T10 T11 T12 T13].
  assert (E : dict_get "meta" (final_options args opts) = dict_get "meta" opts0)
    by (apply (final_options_other "meta" _ _ _ _ _ _ _ T5); reflexivity).
  unfold dict_get_default in T9. unfold meta_overrides. rewrite E in T9.
  apply py_update_Ok in T9.
  destruct T9 as [(o & Eo & ->)|(Eo & ->)].
  - destruct (dict_get "meta" opts0) as [v|].
    + subst v. split; intros k; auto using dict_get_update_absent, dict_has_update.
    + injection Eo as <-. split; reflexivity.
  - destruct (dict_get "meta" opts0) as [v|]; [|discriminate].
    subst v. split; reflexivity.
Qed.

(** C7. The [args] of a rewritten request, serialized in its body and
    kept under the marker, have a [url]: the one the caller put in
    [args], and the URL of the original request when there was none. *)
Theorem rewritten_args_have_url self request w r m w' :
  process_request rt self request w = Ok (ReturnReplaced r, m, w') ->
  exists opts0 args opts,
    dict_get "splash" (meta request) = Some (VDict opts0)
    /\ body r = json_py.dumps (float_repr rt) (VDict args)
    /\ dict_get "_splash_processed" m = Some (VDict opts)
    /\ dict_get "args" opts = Some (VDict args)
    /\ dict_get "url" args
       = Some match dict_get "url" (caller_args opts0) with
              | Some u => u
              | None => VStr (url request)
              end.
Proof.
  intros H. apply process_request_replaced in H.
  destruct H as (opts0 & args0 & args & opts & meta2 & meta3 & T).
  destruct (trace_meta _ _ _ _ _ _ _ _ _ _ _ _ T) as (M & _).
  destruct T as [T1 T2 T3 T4 T5 T6 T7 T8 T9 T10 T11 T12 T13].
  exists opts0, args, (final_options args opts).
  repeat split; auto.
  - unfold final_options. apply dict_get_set_eq.
  - rewrite (proxy_step_args "url" _ _ _ _ _ _ _ T5) by reflexivity.
    rewrite dict_get_setdefault_eq. rewrite (caller_args_setdefault _ _ T4).
    unfold dict_setdefault. now destruct (dict_get "url" args0).
Qed.

(** C3. With an explicit Splash timeout [t] in [args], the request's
    [download_timeout] becomes [float(t) + 5.0] exactly when that exceeds
    the current value (1e6 when there is none) and is left alone
    otherwise, so it is never lowered; the rewritten request has the same
    [download_timeout] unless the options override it.  Timeout 10 over a
    current 5 gives 15.0, and over a current 20 leaves 20. *)
Theorem timeout_reconciliation self request w r m w' opts0 timeout :
  process_request rt self request w = Ok (ReturnReplaced r, m, w') ->
  dict_get "splash" (meta request) = Some (VDict opts0) ->
  dict_get "timeout" (caller_args opts0) = Some timeout ->
  exists t,
    py_float rt timeout = Ok t
    /\ (let expected := PrimFloat.add t splash_extra_timeout in
        let current :=
          dict_get_default "download_timeout" (VFloat 1e6) (meta request) in
        dict_get "download_timeout" m
        = (if float_gt expected current then Some (VFloat expected)
           else dict_get "download_timeout" (meta request)))
    /\ (dict_get "download_timeout" (meta_overrides opts0) = None ->
        dict_get "download_timeout" (meta r) = dict_get "download_timeout" m)
    /\ (forall current,
          timeout = VInt 10 \/ timeout = VFloat 10 ->
          dict_get "download_timeout" (meta request) = Some current ->
          (current = VInt 5 \/ current = VFloat 5 ->
           dict_get "download_timeout" m = Some (VFloat 15))
          /\ (current = VInt 20 \/ current = VFloat 20 ->
              dict_get "download_timeout" m = Some current)).
Proof.
  intros H S A. apply process_request_replaced in H.
  destruct H as (opts0' & args0 & args & opts & meta2 & meta3 & T).
  destruct (trace_overrides _ _ _ _ _ _ _ _ _ _ _ _ T) as (O & _).
  destruct T as [T1 T2 T3 T4 T5 T6 T7 T8 T9 T10 T11 T12 T13].
  rewrite S in T2. injection T2 as <-.
  rewrite (caller_args_setdefault _ _ T4) in A.
  assert (At : dict_get "timeout" args = Some timeout).
  { rewrite (proxy_step_args "timeout" _ _ _ _ _ _ _ T5) by reflexivity.
    now rewrite dict_get_setdefault_neq by reflexivity. }
  assert (Ec : dict_get "download_timeout" meta2
               = dict_get "download_timeout" (meta request)).
  { rewrite (proxy_step_meta _ _ _ _ _ _ _ _ T5) by reflexivity.
    now apply slotted_other. }
  apply reconcile_timeout_Ok in T6. rewrite At in T6.
  destruct T6 as (t & Ft & E3).
  unfold dict_get_default in E3. rewrite Ec in E3.
  assert (G : dict_get "download_timeout" m
              = if float_gt (PrimFloat.add t splash_extra_timeout)
                     (dict_get_default "download_timeout" (VFloat 1e6)
                        (meta request))
                then Some (VFloat (PrimFloat.add t splash_extra_timeout))
                else dict_get "download_timeout" (meta request)).
  { subst m. rewrite dict_get_set_neq by reflexivity. subst meta3.
    unfold dict_get_default.
    destruct (float_gt _ _); [apply dict_get_set_eq|exact Ec]. }
  exists t. split; [exact Ft|]. split; [exact G|]. split; [apply O|].
  intros current Ht Hc.
  assert (t = 10%float) as ->
    by (destruct Ht as [-> | ->]; cbn in Ft; congruence).
  unfold dict_get_default in G. rewrite Hc in G. rewrite G.
  split; intros [-> | ->]; reflexivity.
Qed.

Lemma resolved_endpoint_get opts :
  resolved_endpoint opts
  = dict_get_default "endpoint" (VStr default_endpoint) opts.
Proof.
  unfold resolved_endpoint, dict_setdefault, dict_get_default.
  now destruct (dict_get "endpoint" opts).
Qed.

Lemma resolved_base_url_get self opts :
  resolved_base_url self opts
  = dict_get_default "splash_url" (splash_base_url self) opts.
Proof.
  unfold resolved_base_url, dict_get_default.
  now rewrite dict_get_setdefault_neq by reflexivity.
Qed.

(** The base URL and the endpoint a rewrite joins, read off the request:
    the proxy branch forces the endpoint, the caller's options or the
    defaults give the rest. *)
Lemma trace_url self request w r m w' opts0 args0 args opts meta2 meta3 :
  rewrite_trace rt self request w r m w' opts0 args0 args opts meta2 meta3 ->
  resolved_base_url self opts
  = dict_get_default "splash_url" (splash_base_url self) opts0
  /\ resolved_endpoint opts
     = if truthy (dict_get_default "proxy" VNone (meta request))
       then VStr "execute"
       else dict_get_default "endpoint" (VStr default_endpoint) opts0.
Proof.
  intros [T1 T2 T3 T4 T5 T6 T7 T8 T9 T10 T11 T12 T13].
  rewrite resolved_base_url_get, resolved_endpoint_get.
  unfold dict_get_default. split.
  - rewrite (proxy_step_opts "splash_url" _ _ _ _ _ _ _ T5) by reflexivity.
    now rewrite dict_get_setdefault_neq by reflexivity.
  - assert (P : dict_get "proxy" (slotted rt self request opts0)
                = dict_get "proxy" (meta request))
      by (now apply slotted_other).
    apply proxy_step_Ok in T5. unfold dict_get_default in T5. rewrite P in T5.
    destruct T5 as [(F & _ & -> & _)|(F & ? & ? & ? & ? & _ & _ & _ & _ & _ & -> & _)];
      rewrite F.
    + now rewrite dict_get_setdefault_neq by reflexivity.
    + now rewrite dict_get_set_eq.
Qed.








(** C1, as the code has it.  The rewritten request carries the processed
    marker and is a [POST], so a second [process_request] never rewrites
    it: it returns nothing or hands the request back, with the metadata
    and the statistics as they were.  When the options' [meta] overrides
    have no [splash] key, the rewritten request has no attachment and the
    second call returns [None] and changes nothing at all. *)
Theorem second_pass_does_not_rewrite self request w r m w' opts0 :
  method request = "GET" ->
  dict_get "splash" (meta request) = Some (VDict opts0) ->
  process_request rt self request w = Ok (ReturnReplaced r, m, w') ->
  dict_has "_splash_processed" (meta r) = true
  /\ dict_has "_splash_processed" m = true
  /\ dict_has "splash" m = false
  /\ (exists ret w'',
        process_request rt self r w' = Ok (ret, meta r, w'')
        /\ (ret = ReturnNone \/ ret = ReturnRequest)
        /\ stats w'' = stats w')
  /\ (dict_has "splash" (meta_overrides opts0) = false ->
      dict_has "splash" (meta r) = false
      /\ process_request rt self r w' = Ok (ReturnNone, meta r, w')).
Proof.
  intros _ S H. apply process_request_replaced in H.
  destruct H as (opts0' & args0 & args & opts & meta2 & meta3 & T).
  destruct (trace_overrides _ _ _ _ _ _ _ _ _ _ _ _ T) as (_ & O).
  destruct (trace_meta _ _ _ _ _ _ _ _ _ _ _ _ T) as (M1 & M2 & _).
  destruct T as [T1 T2 T3 T4 T5 T6 T7 T8 T9 T10 T11 T12 T13].
  rewrite S in T2. injection T2 as <-.
  assert (Hm : dict_has "_splash_processed" m = true)
    by (unfold dict_has; now rewrite M1).
  assert (Hs : dict_has "splash" m = false)
    by (unfold dict_has; now rewrite M2).
  assert (NG : method r <> "GET") by (rewrite T10; discriminate).
  split; [rewrite O, Hm; apply orb_true_r|].
  split; [exact Hm|]. split; [exact Hs|]. split.
  - rewrite (process_request_not_GET self r w' NG).
    destruct (truthy (attachment r)); eexists _, _; split; try reflexivity;
      split; auto.
  - intros A.
    assert (R : dict_has "splash" (meta r) = false) by (now rewrite O, A, Hs).
    split; [exact R|].
    rewrite (process_request_not_GET self r w' NG).
    unfold attachment, dict_get_default. unfold dict_has in R.
    destruct (dict_get "splash" (meta r)); [discriminate|reflexivity].
Qed.

(** A [GET] with an attachment is rewritten unless an exception stops the
    method: it is never passed on or handed back. *)
Lemma process_request_GET self request w :
  method request = "GET" ->
  truthy (attachment request) = true ->
  (exists e, process_request rt self request w = Raise e)
  \/ (exists r m w',
        process_request rt self request w = Ok (ReturnReplaced r, m, w')).
Proof.
  intros G T.
  destruct (process_request rt self request w) as [[[ret m] w']|e] eqn:E;
    [right|left; now exists e].
  unfold process_request in E. unfold attachment in T.
  rewrite T, G in E. change ("GET" =? "GET") with true in E.
  cbn [negb] in E.
  apply bind_Ok in E. destruct E as (opts0 & _ & E).
  destruct (dict_setdefault "args" (VDict []) opts0) as [a o1].
  apply bind_Ok in E. destruct E as (args0 & _ & E).
  apply bind_Ok in E. destruct E as ([[args opts] meta2] & _ & E).
  apply bind_Ok in E. destruct E as (meta3 & _ & E).
  destruct (dict_setdefault "endpoint" (VStr default_endpoint) opts)
    as [ep o3].
  apply bind_Ok in E. destruct E as (su & _ & E).
  apply bind_Ok in E. destruct E as (sm & _ & E).
  apply bind_Ok in E. destruct E as (us & _ & E).
  injection E as <- <- <-. eexists _, _, _. reflexivity.
Qed.

(** What [inc_value] does to the counters and the log. *)
Lemma inc_value_same key w :
  dict_get key (stats (inc_value key w))
  = Some (dict_get_default key 0%Z (stats w) + 1)%Z.
Proof. unfold inc_value. cbn [stats]. apply dict_get_set_eq. Qed.

Lemma inc_value_other key k w :
  k <> key -> dict_get k (stats (inc_value key w)) = dict_get k (stats w).
Proof.
  intros N. unfold inc_value. cbn [stats]. apply dict_get_set_neq.
  destruct (key =? k) eqn:E; auto. apply String.eqb_eq in E. congruence.
Qed.

(** X1. What [process_request] returns is decided by the attachment and
    the method: [None] exactly for a falsy attachment, the request itself
    exactly for a truthy attachment on a method other than GET, and a
    replacement only for a GET with a truthy attachment. *)
Theorem process_request_dispatch self request w ret m w' :
  process_request rt self request w = Ok (ret, m, w') ->
  (ret = ReturnNone <-> truthy (attachment request) = false)
  /\ (ret = ReturnRequest
      <-> truthy (attachment request) = true /\ method request <> "GET")
  /\ ((exists r, ret = ReturnReplaced r)
      <-> truthy (attachment request) = true /\ method request = "GET")
  /\ (ret = ReturnNone -> m = meta request /\ w' = w).
Proof.
  intros H.
  destruct (truthy (attachment request)) eqn:T.
  - destruct (String.eqb_spec (method request) "GET") as [G|G].
    + destruct (process_request_GET self request w G T)
        as [(e & E)|(r & m0 & w0 & E)]; [congruence|].
      rewrite E in H. injection H as <- <- <-.
      split; [split; discriminate|].
      split; [split; [discriminate|intros (_ & N); congruence]|].
      split; [split; eauto|discriminate].
    + rewrite (process_request_not_GET self request w G), T in H.
      injection H as <- <- <-.
      split; [split; discriminate|].
      split; [split; auto|].
      split; [|discriminate].
      split; [intros (r & ?); discriminate|intros (_ & ?); congruence].
  - unfold process_request in H. unfold attachment in T. rewrite T in H.
    cbn [negb] in H. injection H as <- <- <-.
    split; [split; auto|].
    split; [split; [discriminate|intros (? & _); discriminate]|].
    split; [|auto].
    split; [intros (r & ?); discriminate|intros (? & _); discriminate].
Qed.

(** The endpoint of a rewrite, read off the request. *)
Lemma trace_endpoint self request w r m w' opts0 args0 args opts meta2 meta3 :
  rewrite_trace rt self request w r m w' opts0 args0 args opts meta2 meta3 ->
  resolved_endpoint opts = endpoint_of request opts0
  /\ dict_get "endpoint" (final_options args opts)
     = Some (endpoint_of request opts0).
Proof.
  intros T. destruct (trace_url _ _ _ _ _ _ _ _ _ _ _ _ T) as (_ & Ue).
  unfold endpoint_of. rewrite <- Ue. split; [reflexivity|].
  unfold final_options, resolved_endpoint.
  rewrite dict_get_set_neq by reflexivity. apply dict_get_setdefault_eq.
Qed.

(** X2. A rewrite adds one to the counter [splash/<endpoint>/request_count]
    of the endpoint the request goes to, starting from 0 when the counter
    is new; every other counter and the log stay as they are. *)
Theorem request_count_incremented self request w r m w' opts0 :
  dict_get "splash" (meta request) = Some (VDict opts0) ->
  process_request rt self request w = Ok (ReturnReplaced r, m, w') ->
  let key :=
    "splash/" ++ py_str rt (endpoint_of request opts0) ++ "/request_count" in
  dict_get key (stats w')
  = Some (dict_get_default key 0%Z (stats w) + 1)%Z
  /\ (forall k, k <> key -> dict_get k (stats w') = dict_get k (stats w))
  /\ log w' = log w.
Proof.
  intros S H key. apply process_request_replaced in H.
  destruct H as (opts0' & args0 & args & opts & meta2 & meta3 & T).
  destruct (trace_endpoint _ _ _ _ _ _ _ _ _ _ _ _ T) as (E & _).
  destruct T as [T1 T2 T3 T4 T5 T6 T7 T8 T9 T10 T11 T12 T13].
  rewrite S in T2. injection T2 as <-.
  rewrite E in T13. fold key in T13. subst w'.
  split; [apply inc_value_same|]. split; [|reflexivity].
  intros k N. now apply inc_value_other.
Qed.

(** What [process_response] does, case by case. *)
Lemma process_response_cases self request response w :
  let marker := dict_get_default "_splash_processed" VNone (meta request) in
  process_response rt self request response w
  = if truthy marker then
      match marker with
      | VDict d =>
          match dict_get "endpoint" d with
          | Some endpoint =>
              Ok (response,
                  inc_value
                    ("splash/" ++ py_str rt endpoint ++ "/response_count/"
                     ++ str_of_Z (status response)) w)
          | None => Raise KeyError
          end
      | _ => Raise TypeError
      end
    else Ok (response, w).
Proof.
  cbv zeta. unfold process_response.
  destruct (truthy _); [|reflexivity].
  destruct (dict_get_default "_splash_processed" VNone (meta request));
    try reflexivity.
  cbn [getitem]. now destruct (dict_get "endpoint" d).
Qed.

(** X3. [process_response] hands the response on as it got it and never
    writes to the log.  Without a truthy marker on the request nothing
    changes at all; with one, the only counter that changes is
    [splash/<endpoint>/response_count/<status>], which goes up by one. *)
Theorem process_response_passes_response self request response w response' w' :
  process_response rt self request response w = Ok (response', w') ->
  response' = response
  /\ log w' = log w
  /\ (truthy (dict_get_default "_splash_processed" VNone (meta request))
      = false -> w' = w)
  /\ (truthy (dict_get_default "_splash_processed" VNone (meta request))
      = true ->
      exists d endpoint,
        dict_get "_splash_processed" (meta request) = Some (VDict d)
        /\ dict_get "endpoint" d = Some endpoint
        /\ let key :=
             "splash/" ++ py_str rt endpoint ++ "/response_count/"
             ++ str_of_Z (status response) in
           dict_get key (stats w')
           = Some (dict_get_default key 0%Z (stats w) + 1)%Z
           /\ forall k, k <> key ->
                        dict_get k (stats w') = dict_get k (stats w)).
Proof.
  rewrite process_response_cases. cbv zeta.
  unfold dict_get_default.
  destruct (dict_get "_splash_processed" (meta request)) as [v|];
    [|cbn [truthy]; intros [= <- <-]; repeat split; auto; discriminate].
  destruct (truthy v) eqn:T.
  - destruct v; try discriminate.
    destruct (dict_get "endpoint" d) as [ep|] eqn:E; [|discriminate].
    intros [= <- <-]. split; [reflexivity|]. split; [reflexivity|].
    split; [discriminate|]. intros _. exists d, ep.
    split; [reflexivity|]. split; [exact E|]. cbv zeta.
    split; [apply inc_value_same|]. intros k N. now apply inc_value_other.
  - intros [= <- <-]. repeat split; auto. discriminate.
Qed.

(** X4. [process_response] fails only on a truthy marker it cannot read:
    with [TypeError] when the marker is not a dictionary and with
    [KeyError] when it is a dictionary with no [endpoint].  On a marker
    that is a dictionary with an [endpoint], and without a truthy marker,
    it returns. *)
Theorem process_response_errors self request response w :
  let marker := dict_get_default "_splash_processed" VNone (meta request) in
  (forall e,
     process_response rt self request response w = Raise e <->
     truthy marker = true
     /\ ((e = TypeError /\ forall d, marker <> VDict d)
         \/ (e = KeyError
             /\ exists d, marker = VDict d /\ dict_get "endpoint" d = None))).
Proof.
  cbv zeta. intros e. rewrite process_response_cases. cbv zeta.
  destruct (truthy _) eqn:T.
  - destruct (dict_get_default "_splash_processed" VNone (meta request))
      as [| | | | |d] eqn:M.
    all: try (split;
              [intros [= <-]; split; auto; left; split; auto; discriminate
              |intros (_ & [(-> & _)|(-> & d & D & _)]);
               [reflexivity|discriminate]]).
    destruct (dict_get "endpoint" d) as [ep|] eqn:E.
    + split; [discriminate|].
      intros (_ & [(_ & N)|(_ & d' & [= <-] & E')]);
        [now destruct (N d)|congruence].
    + split.
      * intros [= <-]. split; auto. right. split; auto. now exists d.
      * intros (_ & [(_ & N)|(-> & _)]); [now destruct (N d)|reflexivity].
  - split; [discriminate|]. intros (? & _). discriminate.
Qed.

(** X5. The rewritten request can always be counted on the way back:
    unless the options' [meta] overrides replace the marker,
    [process_response] on it does not fail and counts the response under
    the endpoint the request was counted under. *)
Theorem response_counted_under_request_endpoint
    self request w r m w' opts0 response :
  dict_get "splash" (meta request) = Some (VDict opts0) ->
  process_request rt self request w = Ok (ReturnReplaced r, m, w') ->
  dict_get "_splash_processed" (meta_overrides opts0) = None ->
  process_response rt self r response w'
  = Ok (response,
        inc_value
          ("splash/" ++ py_str rt (endpoint_of request opts0)
           ++ "/response_count/" ++ str_of_Z (status response)) w')
  /\ process_response rt self (with_meta request m) response w'
     = process_response rt self r response w'.
Proof.
  intros S H A. apply process_request_replaced in H.
  destruct H as (opts0' & args0 & args & opts & meta2 & meta3 & T).
  destruct (trace_endpoint _ _ _ _ _ _ _ _ _ _ _ _ T) as (_ & E).
  destruct (trace_meta _ _ _ _ _ _ _ _ _ _ _ _ T) as (M & _).
  destruct (trace_overrides _ _ _ _ _ _ _ _ _ _ _ _ T) as (O & _).
  destruct T as [T1 T2 T3 T4 T5 T6 T7 T8 T9 T10 T11 T12 T13].
  rewrite S in T2. injection T2 as <-.
  assert (Mr : dict_get "_splash_processed" (meta r)
               = Some (VDict (final_options args opts)))
    by (now rewrite O).
  assert (P : forall rq,
             dict_get "_splash_processed" (meta rq)
             = Some (VDict (final_options args opts)) ->
             process_response rt self rq response w'
             = Ok (response,
                   inc_value
                     ("splash/" ++ py_str rt (endpoint_of request opts0)
                      ++ "/response_count/" ++ str_of_Z (status response))
                     w')).
  { intros rq Hq. rewrite process_response_cases. cbv zeta.
    unfold dict_get_default. rewrite Hq, E.
    replace (truthy (VDict (final_options args opts))) with true;
      [reflexivity|].
    unfold final_options.
    destruct (snd (dict_setdefault "endpoint" (VStr default_endpoint) opts))
      as [|[k v] l]; cbn; [reflexivity|].
    now destruct (k =? "args"). }
  split; [now apply P|]. rewrite (P r Mr). now apply P.
Qed.

(** The slot a rewrite leaves in [request.meta] is the one the slot
    policy wrote. *)
Lemma trace_download_slot self request w r m w' opts0 args0 args opts meta2 meta3 :
  rewrite_trace rt self request w r m w' opts0 args0 args opts meta2 meta3 ->
  dict_get "download_slot" m
  = dict_get "download_slot" (slotted rt self request opts0).
Proof.
  intros [T1 T2 T3 T4 T5 T6 T7 T8 T9 T10 T11 T12 T13]. subst m.
  rewrite dict_get_set_neq by reflexivity.
  rewrite (reconcile_timeout_other _ _ _ _ T6) by reflexivity.
  now rewrite (proxy_step_meta _ _ _ _ _ _ _ _ T5) by reflexivity.
Qed.

(** X6. The slot policy of a rewrite is the options' [slot_policy] when
    there is one and the middleware's otherwise.  [single_slot] gives
    every request the slot [__splash__]; [per_domain] gives it the
    downloader's slot key for the request; any other value leaves
    [download_slot] as the caller had it. *)
Theorem download_slot_follows_policy self request w r m w' opts0 :
  dict_get "splash" (meta request) = Some (VDict opts0) ->
  process_request rt self request w = Ok (ReturnReplaced r, m, w') ->
  (forall p, dict_get "slot_policy" opts0 = Some p -> policy_of self opts0 = p)
  /\ (dict_get "slot_policy" opts0 = None ->
      policy_of self opts0 = slot_policy self)
  /\ (policy_of self opts0 = VStr SINGLE_SLOT ->
      dict_get "download_slot" m = Some (VStr "__splash__"))
  /\ (policy_of self opts0 = VStr PER_DOMAIN ->
      dict_get "download_slot" m
      = Some (downloader_get_slot_key rt
                (with_meta request (marked request opts0))))
  /\ (policy_of self opts0 <> VStr SINGLE_SLOT ->
      policy_of self opts0 <> VStr PER_DOMAIN ->
      dict_get "download_slot" m = dict_get "download_slot" (meta request)).
Proof.
  intros S H. apply process_request_replaced in H.
  destruct H as (opts0' & args0 & args & opts & meta2 & meta3 & T).
  pose proof (trace_download_slot _ _ _ _ _ _ _ _ _ _ _ _ T) as D.
  destruct T as [T1 T2 T3 T4 T5 T6 T7 T8 T9 T10 T11 T12 T13].
  rewrite S in T2. injection T2 as <-.
  unfold slotted in D. fold (policy_of self opts0) in D.
  unfold policy_of at 1 2, dict_get_default.
  split; [intros p ->; reflexivity|]. split; [intros ->; reflexivity|].
  rewrite D. unfold _set_download_slot, _get_slot_key.
  split; [|split].
  - intros ->. cbn. apply dict_get_set_eq.
  - intros ->. cbn. apply dict_get_set_eq.
  - intros N1 N2.
    assert (F : forall s, policy_of self opts0 <> VStr s ->
                          py_eq_str (policy_of self opts0) s = false).
    { intros s N. unfold py_eq_str.
      destruct (policy_of self opts0); auto.
      destruct (String.eqb_spec s0 s); congruence. }
    rewrite (F PER_DOMAIN N2), (F SINGLE_SLOT N1).
    destruct (py_eq_str _ SCRAPY_DEFAULT); now apply marked_other.
Qed.

(** X7. A rewrite changes [request.meta] at five keys at most: [splash],
    [_splash_processed], [download_slot], [proxy] and [download_timeout].
    Every other key stays as the caller set it, and the rewritten request
    has it too unless the options' [meta] overrides name it. *)
Theorem other_metadata_is_kept self request w r m w' opts0 k :
  dict_get "splash" (meta request) = Some (VDict opts0) ->
  process_request rt self request w = Ok (ReturnReplaced r, m, w') ->
  ~ In k ["splash"; "_splash_processed"; "download_slot"; "proxy";
          "download_timeout"] ->
  dict_get k m = dict_get k (meta request)
  /\ (dict_get k (meta_overrides opts0) = None ->
      dict_get k (meta r) = dict_get k (meta request)).
Proof.
  intros S H N. apply process_request_replaced in H.
  destruct H as (opts0' & args0 & args & opts & meta2 & meta3 & T).
  destruct (trace_meta _ _ _ _ _ _ _ _ _ _ _ _ T) as (_ & _ & M).
  destruct (trace_overrides _ _ _ _ _ _ _ _ _ _ _ _ T) as (O & _).
  destruct T as [T1 T2 T3 T4 T5 T6 T7 T8 T9 T10 T11 T12 T13].
  rewrite S in T2. injection T2 as <-.
  assert (F : forall s, In s ["splash"; "_splash_processed"; "download_slot";
                              "proxy"; "download_timeout"] ->
                        (k =? s) = false).
  { intros s I. destruct (String.eqb_spec k s); auto. subst. tauto. }
  assert (E : dict_get k m = dict_get k (meta request))
    by (apply M; apply F; simpl; auto 6).
  split; [exact E|]. intros A. now rewrite O.
Qed.

(** X8. What the options' [meta] overrides hold goes to the rewritten
    request: a key of the overrides has the overrides' value there,
    whatever the request had under it. *)
Theorem overrides_reach_rewritten_request self request w r m w' opts0 k v :
  dict_get "splash" (meta request) = Some (VDict opts0) ->
  process_request rt self request w = Ok (ReturnReplaced r, m, w') ->
  NoDup (map fst (meta_overrides opts0)) ->
  dict_get k (meta_overrides opts0) = Some v ->
  dict_get k (meta r) = Some v.
Proof.
  intros S H N A. apply process_request_replaced in H.
  destruct H as (opts0' & args0 & args & opts & meta2 & meta3 & T).
  destruct T as [T1 T2 T3 T4 T5 T6 T7 T8 T9 T10 T11 T12 T13].
  rewrite S in T2. injection T2 as <-.
  assert (E : dict_get "meta" (final_options args opts)
              = dict_get "meta" opts0)
    by (apply (final_options_other "meta" _ _ _ _ _ _ _ T5); reflexivity).
  unfold dict_get_default in T9. rewrite E in T9.
  unfold meta_overrides in N, A.
  destruct (dict_get "meta" opts0) as [[| | | | |o]|]; try discriminate.
  cbn [py_update] in T9. injection T9 as <-.
  now apply dict_get_update_present.
Qed.

Lemma in_known_iff name :
  existsb (String.eqb name) _known = true <-> In name _known.
Proof.
  rewrite existsb_exists. split.
  - intros (x & I & Hx). apply String.eqb_eq in Hx. now subst.
  - intros I. exists name. split; auto. apply String.eqb_refl.
Qed.

(** X9. [from_crawler] builds a middleware exactly when the configured
    policy, [per_domain] when the setting is unset or [None], is one of the
    three known names, whatever its type; the middleware then has that
    policy, the configured base URL ([http://127.0.0.1:8050] when unset)
    and credentials only for a truthy [SPLASH_USER]. *)
Theorem from_crawler_succeeds_iff settings :
  let policy :=
    settings_get "SPLASH_SLOT_POLICY" (VStr PER_DOMAIN) settings in
  ((exists mw, from_crawler rt settings = Ok mw)
   <-> exists name, policy = VStr name /\ In name _known)
  /\ (forall mw,
        from_crawler rt settings = Ok mw ->
        slot_policy mw = policy
        /\ splash_base_url mw
           = settings_get "SPLASH_URL" (VStr "http://127.0.0.1:8050") settings
        /\ (splash_auth mw = None
            <-> truthy (settings_get "SPLASH_USER" VNone settings) = false)).
Proof.
  cbv zeta. unfold from_crawler.
  change default_policy with PER_DOMAIN.
  destruct (settings_get "SPLASH_SLOT_POLICY" (VStr PER_DOMAIN) settings)
    as [| | | |name|d] eqn:P; cbn [in_known bind negb].
  1-4: split;
    [split; [intros (mw & ?); discriminate|intros (n & ? & _); discriminate]
    |intros mw ?; discriminate].
  - destruct (existsb (String.eqb name) _known) eqn:K; cbn [negb].
    + split.
      * split; [intros _; exists name; split; auto; now apply in_known_iff
               |intros _; eexists; reflexivity].
      * intros mw [= <-]. unfold __init__. cbn [slot_policy splash_base_url splash_auth].
        split; [reflexivity|]. split; [reflexivity|].
        destruct (truthy (settings_get "SPLASH_USER" VNone settings));
          split; auto; discriminate.
    + split; [|intros mw ?; discriminate].
      split; [intros (mw & ?); discriminate|].
      intros (n & [= <-] & I). apply in_known_iff in I. congruence.
  - split;
      [split; [intros (mw & ?); discriminate|intros (n & ? & _); discriminate]
      |intros mw ?; discriminate].
Qed.

(** X10. The rewritten request is a [POST] whose headers are built from
    the middleware alone: [Content-Type: application/json], followed by
    [Authorization] with [basic_auth_header] of the configured user and
    password when [SPLASH_USER] is truthy.  No header of the original
    request is among them. *)
Theorem rewritten_headers_from_settings settings self request w r m w' :
  from_crawler rt settings = Ok self ->
  process_request rt self request w = Ok (ReturnReplaced r, m, w') ->
  let user := settings_get "SPLASH_USER" VNone settings in
  let passwd := settings_get "SPLASH_PASS" (VStr "") settings in
  method r = "POST"
  /\ (truthy user = false ->
      headers r = [("Content-Type", ["application/json"])])
  /\ (truthy user = true ->
      basic_auth_header rt user passwd <> "" ->
      headers r
      = [("Content-Type", ["application/json"]);
         ("Authorization", [basic_auth_header rt user passwd])]).
Proof.
  intros F H user passwd. apply process_request_replaced in H.
  destruct H as (opts0 & args0 & args & opts & meta2 & meta3 & T).
  destruct T as [T1 T2 T3 T4 T5 T6 T7 T8 T9 T10 T11 T12 T13].
  unfold from_crawler in F. apply bind_Ok in F. destruct F as (k & _ & F).
  destruct (negb k); [discriminate|]. injection F as <-.
  rewrite T11. unfold json_headers, __init__. cbn [splash_auth].
  fold user passwd.
  split; [exact T10|]. split.
  - intros ->. reflexivity.
  - intros -> N.
    destruct (String.eqb_spec (basic_auth_header rt user passwd) "");
      [contradiction|reflexivity].
Qed.

(** The header table entry by entry: every header has a value, or the
    first one without raises [IndexError]. *)
Lemma map_res_lua_header (hs : Headers) :
  match map_res lua_header hs with
  | Ok _ => forall k vs, In (k, vs) hs -> vs <> []
  | Raise e => e = IndexError /\ exists k, In (k, []) hs
  end.
Proof.
  induction hs as [|[k vs] hs IH]; cbn [map_res]; [intros ? ? []|].
  unfold lua_header at 1. cbn [fst snd].
  destruct vs as [|v vs]; cbn [bind].
  - split; [reflexivity|]. exists k. now left.
  - destruct (map_res lua_header hs) as [l|e]; cbn [bind].
    + intros k' vs' [[= <- <-]|I]; [discriminate|now apply (IH k')].
    + destruct IH as (-> & k' & I). split; [reflexivity|].
      exists k'. now right.
Qed.

(** X11. The header table of the proxy script is built exactly when every
    header has at least one value; a header with an empty list of values
    makes [headers_as_lua_list] raise [IndexError], and it raises nothing
    else. *)
Theorem headers_as_lua_list_needs_values (hs : Headers) :
  ((exists s, headers_as_lua_list hs = Ok s)
   <-> forall k vs, In (k, vs) hs -> vs <> [])
  /\ (forall e,
        headers_as_lua_list hs = Raise e <->
        e = IndexError /\ exists k, In (k, []) hs).
Proof.
  unfold headers_as_lua_list.
  pose proof (map_res_lua_header hs) as M.
  destruct (map_res lua_header hs) as [l|e0]; cbn [bind].
  - split.
    + split; [intros _; exact M|intros _; eexists; reflexivity].
    + intros e. split; [discriminate|].
      intros (_ & k & I). now destruct (M k [] I).
  - destruct M as (-> & k & I). split.
    + split; [intros (s & ?); discriminate|].
      intros A. now destruct (A k [] I).
    + intros e. split.
      * intros [= <-]. split; [reflexivity|]. now exists k.
      * intros (-> & _). reflexivity.
Qed.

(** [process_request] on a [GET] with a truthy attachment, up to the point
    where the options are first used. *)
Lemma process_request_GET_unfold self request w :
  method request = "GET" ->
  truthy (attachment request) = true ->
  process_request rt self request w
  = (opts0 <- as_dict AttributeError (attachment request) ;;
     args0 <- as_dict AttributeError
                (fst (dict_setdefault "args" (VDict []) opts0)) ;;
     x <- proxy_step rt
            (snd (dict_setdefault "url" (VStr (url request)) args0))
            (snd (dict_setdefault "args" (VDict []) opts0))
            (_set_download_slot rt
               (with_meta request
                  (dict_set "_splash_processed" (attachment request)
                     (dict_del "splash" (meta request))))
               (dict_set "_splash_processed" (attachment request)
                  (dict_del "splash" (meta request)))
               (policy_of self opts0))
            (headers request) ;;
     meta3 <- reconcile_timeout rt (fst (fst x)) (snd x) ;;
     splash_url <-
       urljoin (resolved_base_url self (snd (fst x)))
         (resolved_endpoint (snd (fst x))) ;;
     splash_meta <-
       py_update
         (dict_set "_splash_processed"
            (VDict (final_options (fst (fst x)) (snd (fst x)))) meta3)
         (dict_get_default "meta" (VDict [])
            (final_options (fst (fst x)) (snd (fst x)))) ;;
     splash_url <- as_str TypeError splash_url ;;
     Ok (ReturnReplaced
           (mkRequest splash_url "POST" (json_headers self)
              (json_py.dumps (float_repr rt) (VDict (fst (fst x))))
              splash_meta),
         dict_set "_splash_processed"
           (VDict (final_options (fst (fst x)) (snd (fst x)))) meta3,
         inc_value
           ("splash/" ++ py_str rt (resolved_endpoint (snd (fst x)))
            ++ "/request_count") w)).
Proof.
  intros G T. unfold process_request. fold (attachment request).
  rewrite T, G. change ("GET" =? "GET") with true. cbn [negb].
  destruct (as_dict AttributeError (attachment request)) as [opts0|e];
    cbn [bind]; [|reflexivity].
  destruct (dict_setdefault "args" (VDict []) opts0) as [a o1].
  cbn [fst snd].
  destruct (as_dict AttributeError a) as [args0|e]; cbn [bind];
    [|reflexivity].
  unfold proxy_step, policy_of.
  match goal with
  | |- bind ?x _ = bind ?y _ => change y with x; destruct x as [[[a1 o2] m2]|e]
  end; cbn [bind fst snd]; [|reflexivity].
  destruct (reconcile_timeout rt a1 m2) as [meta3|e]; cbn [bind];
    [|reflexivity].
  unfold resolved_base_url, resolved_endpoint, final_options.
  destruct (dict_setdefault "endpoint" (VStr default_endpoint) o2)
    as [ep o3]. cbn [fst snd].
  reflexivity.
Qed.

(** X12. Options that are not a mapping stop a [GET] with
    [AttributeError]: a truthy attachment that is not a dictionary, and an
    [args] entry that is not one. *)
Theorem options_must_be_dictionaries self request w :
  method request = "GET" ->
  truthy (attachment request) = true ->
  ((forall d, attachment request <> VDict d) ->
   process_request rt self request w = Raise AttributeError)
  /\ (forall opts v,
        attachment request = VDict opts ->
        dict_get "args" opts = Some v ->
        (forall a, v <> VDict a) ->
        process_request rt self request w = Raise AttributeError).
Proof.
  intros G T. rewrite (process_request_GET_unfold self request w G T).
  split.
  - intros N. destruct (attachment request); try reflexivity.
    now destruct (N d).
  - intros opts v -> A N. cbn [as_dict bind].
    unfold dict_setdefault. rewrite A. cbn [fst].
    destruct v; try reflexivity. now destruct (N d).
Qed.

(** X13. An explicit timeout that [float] rejects stops the rewrite of a
    request without a proxy with the exception [float] raised, [TypeError]
    for [None]. *)
Theorem timeout_must_convert self request w opts timeout e :
  method request = "GET" ->
  dict_get "splash" (meta request) = Some (VDict opts) ->
  dict_get "args" opts = Some (VDict (caller_args opts)) ->
  dict_get "timeout" (caller_args opts) = Some timeout ->
  truthy (dict_get_default "proxy" VNone (meta request)) = false ->
  py_float rt timeout = Raise e ->
  process_request rt self request w = Raise e
  /\ (timeout = VNone -> e = TypeError).
Proof.
  intros G S A Ti P F.
  assert (Att : attachment request = VDict opts)
    by (unfold attachment, dict_get_default; now rewrite S).
  assert (T : truthy (attachment request) = true).
  { rewrite Att. destruct opts; [discriminate|reflexivity]. }
  split.
  - rewrite (process_request_GET_unfold self request w G T).
    rewrite Att. cbn [as_dict bind].
    assert (A1 : fst (dict_setdefault "args" (VDict []) opts)
                 = VDict (caller_args opts))
      by (unfold dict_setdefault; now rewrite A).
    rewrite A1. cbn [as_dict bind].
    unfold proxy_step, dict_get_default.
    rewrite _set_download_slot_other by reflexivity.
    rewrite dict_get_set_neq, dict_get_del_neq by reflexivity.
    unfold dict_get_default in P. rewrite P. cbn [bind fst snd].
    unfold reconcile_timeout.
    rewrite dict_get_setdefault_neq, Ti, F by reflexivity.
    reflexivity.
  - intros ->. cbn in F. congruence.
Qed.

(** X14. A truthy proxy that is not a string stops the rewrite:
    [TypeError] for a dictionary, [AttributeError] for any other value. *)
Theorem proxy_must_be_a_string self request w opts args0 proxy :
  method request = "GET" ->
  dict_get "splash" (meta request) = Some (VDict opts) ->
  opts <> [] ->
  fst (dict_setdefault "args" (VDict []) opts) = VDict args0 ->
  dict_get "proxy" (meta request) = Some proxy ->
  truthy proxy = true ->
  (forall s, proxy <> VStr s) ->
  process_request rt self request w
  = Raise (match proxy with VDict _ => TypeError | _ => AttributeError end).
Proof.
  intros G S N A P Tp Ns.
  assert (Att : attachment request = VDict opts)
    by (unfold attachment, dict_get_default; now rewrite S).
  assert (T : truthy (attachment request) = true).
  { rewrite Att. destruct opts; [congruence|reflexivity]. }
  rewrite (process_request_GET_unfold self request w G T).
  rewrite Att. cbn [as_dict bind]. rewrite A. cbn [as_dict bind].
  unfold proxy_step, dict_get_default, setup_variables_for_proxy_usage.
  rewrite _set_download_slot_other by reflexivity.
  rewrite dict_get_set_neq, dict_get_del_neq by reflexivity.
  rewrite P, Tp. cbn [bind].
  destruct proxy; try reflexivity. now destruct (Ns s).
Qed.

(** The [args] and the options of a rewrite, key by key. *)
Lemma trace_args self request w r m w' opts0 args0 args opts meta2 meta3 :
  rewrite_trace rt self request w r m w' opts0 args0 args opts meta2 meta3 ->
  args0 = caller_args opts0
  /\ (forall k, (k =? "url") = false -> (k =? "lua_source") = false ->
                dict_get k args = dict_get k (caller_args opts0))
  /\ (truthy (dict_get_default "proxy" VNone (meta request)) = false ->
      args = snd (dict_setdefault "url" (VStr (url request))
                    (caller_args opts0)))
  /\ (forall k, (k =? "args") = false -> (k =? "endpoint") = false ->
                dict_get k (final_options args opts) = dict_get k opts0).
Proof.
  intros [T1 T2 T3 T4 T5 T6 T7 T8 T9 T10 T11 T12 T13].
  pose proof (caller_args_setdefault _ _ T4) as C. subst args0.
  split; [reflexivity|]. split; [|split].
  - intros k N1 N2.
    rewrite (proxy_step_args _ _ _ _ _ _ _ _ T5) by assumption.
    rewrite String.eqb_sym in N1.
    now rewrite dict_get_setdefault_neq.
  - intros P. apply proxy_step_Ok in T5.
    destruct T5 as [(_ & -> & _)|(P' & _)]; [reflexivity|].
    unfold dict_get_default in P, P'.
    rewrite slotted_other in P' by reflexivity. congruence.
  - intros k N1 N2.
    now apply (final_options_other k _ _ _ _ _ _ _ T5).
Qed.

(** X15. A rewrite means that the options were well formed: they are not
    empty, [args] and the [meta] overrides are dictionaries when present
    (the overrides may also be the empty string), [float] accepts an
    explicit timeout, a truthy proxy is a string and, with a proxy, every
    header of the request has a value. *)
Theorem rewrite_needs_wellformed_options self request w r m w' opts0 :
  dict_get "splash" (meta request) = Some (VDict opts0) ->
  process_request rt self request w = Ok (ReturnReplaced r, m, w') ->
  opts0 <> []
  /\ (forall v, dict_get "args" opts0 = Some v -> v = VDict (caller_args opts0))
  /\ (forall v, dict_get "meta" opts0 = Some v ->
                v = VDict (meta_overrides opts0) \/ v = VStr "")
  /\ (forall t, dict_get "timeout" (caller_args opts0) = Some t ->
                exists f, py_float rt t = Ok f)
  /\ (forall p, dict_get "proxy" (meta request) = Some p ->
                truthy p = true ->
                (exists s, p = VStr s)
                /\ forall k vs, In (k, vs) (headers request) -> vs <> []).
Proof.
  intros S H. apply process_request_replaced in H.
  destruct H as (opts0' & args0 & args & opts & meta2 & meta3 & T).
  destruct (trace_args _ _ _ _ _ _ _ _ _ _ _ _ T) as (C & A & _ & O).
  destruct T as [T1 T2 T3 T4 T5 T6 T7 T8 T9 T10 T11 T12 T13].
  rewrite S in T2. injection T2 as <-. subst args0.
  split; [assumption|]. split; [|split; [|split]].
  - intros v E. unfold dict_setdefault in T4. rewrite E in T4.
    exact T4.
  - intros v E. unfold dict_get_default in T9.
    rewrite (O "meta") in T9 by reflexivity. rewrite E in T9.
    apply py_update_Ok in T9. unfold meta_overrides. rewrite E.
    destruct T9 as [(o & -> & _)|(-> & _)]; auto.
  - intros t E. rewrite <- (A "timeout") in E by reflexivity.
    apply reconcile_timeout_Ok in T6. rewrite E in T6.
    destruct T6 as (f & F & _). now exists f.
  - intros p E Tp. apply proxy_step_Ok in T5.
    rewrite <- (slotted_other "proxy" self request opts0) in E
      by reflexivity.
    unfold dict_get_default in T5. rewrite E, Tp in T5.
    destruct T5 as [(? & _)|(_ & pu & pa & po & lh & Ep & _ & _ & L & _)];
      [discriminate|].
    split; [exists pu; congruence|].
    unfold headers_as_lua_list in L.
    pose proof (map_res_lua_header (headers request)) as M.
    destruct (map_res lua_header (headers request)); [exact M|discriminate].
Qed.

(** X16. A rewrite keeps what the caller put in the options and in
    [args]: under the marker every option other than [args] and
    [endpoint] is the caller's, the [args] there are the ones serialized
    in the body, and they differ from the caller's at [url] and
    [lua_source] at most; without a proxy they are the caller's with
    [url] defaulted, so [lua_source] is the caller's too. *)
Theorem options_and_args_are_kept self request w r m w' opts0 :
  dict_get "splash" (meta request) = Some (VDict opts0) ->
  process_request rt self request w = Ok (ReturnReplaced r, m, w') ->
  exists opts args,
    dict_get "_splash_processed" m = Some (VDict opts)
    /\ dict_get "args" opts = Some (VDict args)
    /\ body r = json_py.dumps (float_repr rt) (VDict args)
    /\ (forall k, k <> "args" -> k <> "endpoint" ->
                  dict_get k opts = dict_get k opts0)
    /\ (forall k, k <> "url" -> k <> "lua_source" ->
                  dict_get k args = dict_get k (caller_args opts0))
    /\ (truthy (dict_get_default "proxy" VNone (meta request)) = false ->
        args = snd (dict_setdefault "url" (VStr (url request))
                      (caller_args opts0))
        /\ dict_get "lua_source" args
           = dict_get "lua_source" (caller_args opts0)).
Proof.
  intros S H. apply process_request_replaced in H.
  destruct H as (opts0' & args0 & args & opts & meta2 & meta3 & T).
  destruct (trace_args _ _ _ _ _ _ _ _ _ _ _ _ T) as (C & A & P & O).
  destruct (trace_meta _ _ _ _ _ _ _ _ _ _ _ _ T) as (M & _).
  destruct T as [T1 T2 T3 T4 T5 T6 T7 T8 T9 T10 T11 T12 T13].
  rewrite S in T2. injection T2 as <-.
  exists (final_options args opts), args.
  split; [exact M|]. split; [apply dict_get_set_eq|].
  split; [exact T12|]. split; [|split].
  - intros k N1 N2. apply O; now apply String.eqb_neq.
  - intros k N1 N2. apply A; now apply String.eqb_neq.
  - intros Pf. split; [now apply P|].
    rewrite (P Pf). now rewrite dict_get_setdefault_neq by reflexivity.
Qed.

(** X17. Without an explicit timeout in [args] a rewrite leaves
    [download_timeout] as the caller set it (or unset), and the rewritten
    request has the same unless the options override it. *)
Theorem download_timeout_kept_without_timeout self request w r m w' opts0 :
  dict_get "splash" (meta request) = Some (VDict opts0) ->
  dict_get "timeout" (caller_args opts0) = None ->
  process_request rt self request w = Ok (ReturnReplaced r, m, w') ->
  dict_get "download_timeout" m = dict_get "download_timeout" (meta request)
  /\ (dict_get "download_timeout" (meta_overrides opts0) = None ->
      dict_get "download_timeout" (meta r)
      = dict_get "download_timeout" (meta request)).
Proof.
  intros S Ti H. apply process_request_replaced in H.
  destruct H as (opts0' & args0 & args & opts & meta2 & meta3 & T).
  destruct (trace_args _ _ _ _ _ _ _ _ _ _ _ _ T) as (C & A & _ & _).
  destruct (trace_overrides _ _ _ _ _ _ _ _ _ _ _ _ T) as (O & _).
  destruct T as [T1 T2 T3 T4 T5 T6 T7 T8 T9 T10 T11 T12 T13].
  rewrite S in T2. injection T2 as <-.
  assert (E : dict_get "download_timeout" m
              = dict_get "download_timeout" (meta request)).
  { rewrite T8. rewrite dict_get_set_neq by reflexivity.
    apply reconcile_timeout_Ok in T6.
    rewrite (A "timeout"), Ti in T6 by reflexivity. subst meta3.
    rewrite (proxy_step_meta _ _ _ _ _ _ _ _ T5) by reflexivity.
    now apply slotted_other. }
  split; [exact E|]. intros N. now rewrite (O _ N).
Qed.

(** X18. [setup_variables_for_proxy_usage] needs a [proxy] key: without
    one it raises [KeyError].  When it returns it has changed [args] at
    [lua_source] only, the options at [endpoint] only, which is
    [execute], and the metadata by removing [proxy] only. *)
Theorem setup_variables_for_proxy_usage_frame args meta opts hs :
  (dict_get "proxy" meta = None ->
   setup_variables_for_proxy_usage rt args meta opts hs = Raise KeyError)
  /\ (forall args' opts' meta',
        setup_variables_for_proxy_usage rt args meta opts hs
        = Ok (args', opts', meta') ->
        (exists src, dict_get "lua_source" args' = Some (VStr src))
        /\ (forall k, k <> "lua_source" ->
                      dict_get k args' = dict_get k args)
        /\ dict_get "endpoint" opts' = Some (VStr "execute")
        /\ (forall k, k <> "endpoint" -> dict_get k opts' = dict_get k opts)
        /\ dict_get "proxy" meta' = None
        /\ (forall k, k <> "proxy" -> dict_get k meta' = dict_get k meta)).
Proof.
  split.
  - intros N. unfold setup_variables_for_proxy_usage. now rewrite N.
  - intros args' opts' meta' H.
    unfold setup_variables_for_proxy_usage in H.
    apply bind_Ok in H. destruct H as (pv & _ & H).
    apply bind_Ok in H. destruct H as (purl & _ & H).
    apply bind_Ok in H. destruct H as (parsed & _ & H).
    apply bind_Ok in H. destruct H as (port & _ & H).
    apply bind_Ok in H. destruct H as (lh & _ & H).
    injection H as <- <- <-.
    split; [eexists; apply dict_get_set_eq|].
    split; [intros k N; apply dict_get_set_neq, String.eqb_neq; congruence|].
    split; [apply dict_get_set_eq|].
    split; [intros k N; apply dict_get_set_neq, String.eqb_neq; congruence|].
    split; [apply dict_get_del_eq|].
    intros k N; apply dict_get_del_neq, String.eqb_neq; congruence.
Qed.

(** X19. [meta] overrides that are neither a dictionary nor the empty
    string stop the rewrite at [new_meta.update]: a request that would
    be rewritten with no overrides raises [ValueError] for a string and
    [TypeError] for any other value. *)
Theorem overrides_must_be_a_dictionary self request w opts0 args0 v u :
  method request = "GET" ->
  dict_get "splash" (meta request) = Some (VDict opts0) ->
  fst (dict_setdefault "args" (VDict []) opts0) = VDict args0 ->
  dict_get "timeout" args0 = None ->
  truthy (dict_get_default "proxy" VNone (meta request)) = false ->
  urljoin (dict_get_default "splash_url" (splash_base_url self) opts0)
    (dict_get_default "endpoint" (VStr default_endpoint) opts0)
  = Ok (VStr u) ->
  dict_get "meta" opts0 = Some v ->
  (forall d, v <> VDict d) ->
  v <> VStr "" ->
  process_request rt self request w
  = Raise (match v with VStr _ => ValueError | _ => TypeError end).
Proof.
  intros G S A Ti P U Mv Nd Ns.
  assert (Att : attachment request = VDict opts0)
    by (unfold attachment, dict_get_default; now rewrite S).
  assert (T : truthy (attachment request) = true).
  { rewrite Att. destruct opts0; [discriminate|reflexivity]. }
  rewrite (process_request_GET_unfold self request w G T).
  rewrite Att. cbn [as_dict bind]. rewrite A. cbn [as_dict bind].
  unfold proxy_step, dict_get_default.
  rewrite _set_download_slot_other by reflexivity.
  rewrite dict_get_set_neq, dict_get_del_neq by reflexivity.
  unfold dict_get_default in P. rewrite P. cbn [bind fst snd].
  unfold reconcile_timeout.
  rewrite dict_get_setdefault_neq, Ti by reflexivity. cbn [bind].
  rewrite resolved_base_url_get, resolved_endpoint_get.
  unfold dict_get_default in *.
  rewrite !dict_get_setdefault_neq by reflexivity.
  rewrite U. cbn [bind].
  unfold final_options.
  rewrite dict_get_set_neq by reflexivity.
  rewrite !dict_get_setdefault_neq by reflexivity.
  rewrite Mv.
  destruct v; try reflexivity.
  - cbn [py_update]. destruct (String.eqb_spec s ""); [|reflexivity].
    subst s. now destruct Ns.
  - now destruct (Nd d).
Qed.

(** X20. A rewrite takes the attachment off the original request: the
    request as the call leaves it has no [splash] key, so handing it to
    [process_request] again, under any middleware and counters, passes it
    on with nothing changed, and [process_response] counts a response to
    it under the endpoint of the rewrite. *)
Theorem original_request_is_passed_on_afterwards
    self request w r m w' self2 w2 response :
  process_request rt self request w = Ok (ReturnReplaced r, m, w') ->
  dict_get "splash" m = None
  /\ process_request rt self2 (with_meta request m) w2
     = Ok (ReturnNone, m, w2)
  /\ exists opts0,
       dict_get "splash" (meta request) = Some (VDict opts0)
       /\ process_response rt self2 (with_meta request m) response w2
          = Ok (response,
                inc_value
                  ("splash/" ++ py_str rt (endpoint_of request opts0)
                   ++ "/response_count/" ++ str_of_Z (status response)) w2).
Proof.
  intros H. apply process_request_replaced in H.
  destruct H as (opts0 & args0 & args & opts & meta2 & meta3 & T).
  destruct (trace_meta _ _ _ _ _ _ _ _ _ _ _ _ T) as (M & S & _).
  destruct (trace_endpoint _ _ _ _ _ _ _ _ _ _ _ _ T) as (_ & E).
  split; [exact S|]. split.
  - unfold process_request, dict_get_default.
    cbn [meta with_meta]. rewrite S. reflexivity.
  - exists opts0. split; [exact (tr_attachment _ _ _ _ _ _ _ _ _ _ _ _ _ T)|].
    unfold process_response, dict_get_default. cbn [meta with_meta].
    rewrite M.
    assert (Tr : truthy (VDict (final_options args opts)) = true).
    { unfold final_options.
      pose proof (dict_get_set_eq "args" (VDict args)
                    (snd (dict_setdefault "endpoint" (VStr default_endpoint)
                            opts))) as Q.
      destruct (dict_set "args" (VDict args) _); [discriminate|reflexivity]. }
    rewrite Tr. unfold getitem. rewrite E. reflexivity.
Qed.

End Properties.

(** ** The properties on the sample requests *)

(** Empty settings give the sample middleware. *)
Lemma from_crawler_default :
  from_crawler Sample.runtime [] = Ok Sample.middleware.
Proof. reflexivity. Qed.

(** C6 on a [POST] with options. *)
Lemma non_GET_is_passed_through_witness :
  truthy (attachment Sample.req_post) = true
  /\ method Sample.req_post <> "GET"
  /\ exists w',
      process_request Sample.runtime Sample.middleware Sample.req_post
        Sample.world
      = Ok (ReturnRequest, meta Sample.req_post, w')
      /\ log w'
         = (log Sample.world
            ++ [(GET_only_warning Sample.req_post, WARNING)])%list
      /\ stats w' = stats Sample.world.
Proof.
  assert (T : truthy (attachment Sample.req_post) = true) by reflexivity.
  assert (N : method Sample.req_post <> "GET") by (vm_compute; discriminate).
  split; [exact T|]. split; [exact N|].
  exact (non_GET_is_passed_through Sample.runtime Sample.middleware
           Sample.req_post Sample.world T N).
Defined.

(** C8 on the empty attachment. *)
Lemma empty_attachment_is_passed_through_witness :
  dict_get "splash" (meta Sample.req_empty) = Some (VDict [])
  /\ truthy (VDict []) = false
  /\ process_request Sample.runtime Sample.middleware Sample.req_empty
       Sample.world
     = Ok (ReturnNone, meta Sample.req_empty, Sample.world).
Proof.
  split; [reflexivity|]. split; [reflexivity|].
  exact (empty_attachment_is_passed_through Sample.runtime Sample.middleware
           Sample.req_empty Sample.world (VDict []) eq_refl eq_refl).
Defined.

(** C4 on [per_ip], which is not a policy, and on [single_slot]. *)
Lemma from_crawler_checks_policy_witness :
  from_crawler Sample.runtime [("SPLASH_SLOT_POLICY", VStr "per_ip")]
  = Raise (NotConfigured (VStr "per_ip"))
  /\ exists mw,
      from_crawler Sample.runtime [("SPLASH_SLOT_POLICY", VStr "single_slot")]
      = Ok mw
      /\ slot_policy mw = VStr "single_slot".
Proof.
  split.
  - apply (from_crawler_checks_policy Sample.runtime
             [("SPLASH_SLOT_POLICY", VStr "per_ip")] "per_ip" eq_refl).
    intros [H|[H|[H|[]]]]; discriminate.
  - apply (from_crawler_checks_policy Sample.runtime
             [("SPLASH_SLOT_POLICY", VStr "single_slot")] "single_slot" eq_refl).
    right. left. reflexivity.
Defined.

(** C7 on options [{'args': {}}]. *)
Lemma rewritten_args_have_url_witness :
  exists r m w',
    process_request Sample.runtime Sample.middleware Sample.req_plain
      Sample.world
    = Ok (ReturnReplaced r, m, w')
    /\ exists opts0 args opts,
        dict_get "splash" (meta Sample.req_plain) = Some (VDict opts0)
        /\ body r = json_py.dumps (float_repr Sample.runtime) (VDict args)
        /\ dict_get "_splash_processed" m = Some (VDict opts)
        /\ dict_get "args" opts = Some (VDict args)
        /\ dict_get "url" args
           = Some match dict_get "url" (caller_args opts0) with
                  | Some u => u
                  | None => VStr (url Sample.req_plain)
                  end.
Proof.
  assert (E : exists r m w',
             process_request Sample.runtime Sample.middleware Sample.req_plain
               Sample.world
             = Ok (ReturnReplaced r, m, w'))
    by (vm_compute; eexists _, _, _; reflexivity).
  destruct E as (r & m & w' & E).
  exists r, m, w'. split; [exact E|].
  exact (rewritten_args_have_url Sample.runtime Sample.middleware
           Sample.req_plain Sample.world r m w' E).
Defined.

(** C3 on a timeout of 10 over a [download_timeout] of 5. *)
Lemma timeout_reconciliation_witness :
  exists r m w',
    process_request Sample.runtime Sample.middleware
      (Sample.req_timeout (VInt 5)) Sample.world
    = Ok (ReturnReplaced r, m, w')
    /\ dict_get "download_timeout" m = Some (VFloat 15)
    /\ dict_get "download_timeout" (meta r) = Some (VFloat 15).
Proof.
  assert (E : exists r m w',
             process_request Sample.runtime Sample.middleware
               (Sample.req_timeout (VInt 5)) Sample.world
             = Ok (ReturnReplaced r, m, w'))
    by (vm_compute; eexists _, _, _; reflexivity).
  destruct E as (r & m & w' & E).
  exists r, m, w'. split; [exact E|].
  destruct (timeout_reconciliation Sample.runtime Sample.middleware
              (Sample.req_timeout (VInt 5)) Sample.world r m w'
              [("args", VDict [("timeout", VInt 10)])] (VInt 10)
              E eq_refl eq_refl)
    as (t & _ & _ & O & X).
  assert (M : dict_get "download_timeout" m = Some (VFloat 15)).
  { apply (X (VInt 5)); auto. }
  split; [exact M|]. rewrite O; [exact M|reflexivity].
Defined.





(** C1 on options [{'args': {}}]. *)
Lemma second_pass_does_not_rewrite_witness :
  exists r m w',
    process_request Sample.runtime Sample.middleware Sample.req_plain
      Sample.world
    = Ok (ReturnReplaced r, m, w')
    /\ dict_has "_splash_processed" (meta r) = true
    /\ dict_has "_splash_processed" m = true
    /\ dict_has "splash" m = false
    /\ dict_has "splash" (meta r) = false
    /\ process_request Sample.runtime Sample.middleware r w'
       = Ok (ReturnNone, meta r, w').
Proof.
  assert (E : exists r m w',
             process_request Sample.runtime Sample.middleware Sample.req_plain
               Sample.world
             = Ok (ReturnReplaced r, m, w'))
    by (vm_compute; eexists _, _, _; reflexivity).
  destruct E as (r & m & w' & E).
  exists r, m, w'. split; [exact E|].
  destruct (second_pass_does_not_rewrite Sample.runtime Sample.middleware
              Sample.req_plain Sample.world r m w' [("args", VDict [])]
              eq_refl eq_refl E)
    as (A & B & C & _ & D).
  destruct (D eq_refl) as (D1 & D2).
  repeat split; assumption.
Defined.

(** C1 as stated fails when the options' [meta] overrides carry a
    [splash] key: the rewritten request has an attachment again, and the
    second call hands it back with a warning in the log. *)
Lemma second_pass_counterexample :
  exists r m w' w'',
    method Sample.req_override = "GET"
    /\ truthy (attachment Sample.req_override) = true
    /\ process_request Sample.runtime Sample.middleware Sample.req_override
         Sample.world
       = Ok (ReturnReplaced r, m, w')
    /\ dict_has "splash" (meta r) = true
    /\ process_request Sample.runtime Sample.middleware r w'
       = Ok (ReturnRequest, meta r, w'')
    /\ log w'' = (log w' ++ [(GET_only_warning r, WARNING)])%list
    /\ w'' <> w'.
Proof.
  eexists _, _, _, _.
  split; [reflexivity|]. split; [reflexivity|].
  split; [vm_compute; reflexivity|].
  split; [reflexivity|]. split; [reflexivity|].
  split; [reflexivity|]. vm_compute. discriminate.
Qed.

(** X1 on the three kinds of request. *)
Lemma process_request_dispatch_witness :
  (ReturnRequest = ReturnNone <-> truthy (attachment Sample.req_post) = false)
  /\ (ReturnRequest = ReturnRequest
      <-> truthy (attachment Sample.req_post) = true
          /\ method Sample.req_post <> "GET")
  /\ ((exists r, ReturnRequest = ReturnReplaced r)
      <-> truthy (attachment Sample.req_post) = true
          /\ method Sample.req_post = "GET")
  /\ (ReturnRequest = ReturnNone ->
      meta Sample.req_post = meta Sample.req_post
      /\ log_msg (GET_only_warning Sample.req_post) WARNING Sample.world
         = Sample.world).
Proof.
  exact (process_request_dispatch Sample.runtime Sample.middleware
           Sample.req_post Sample.world ReturnRequest (meta Sample.req_post)
           (log_msg (GET_only_warning Sample.req_post) WARNING Sample.world)
           eq_refl).
Defined.

(** X2 and X3 on the sample request and a response with status 200: one
    request and one response counted for [render.json]. *)
Lemma request_count_incremented_witness :
  exists r m w',
    process_request Sample.runtime Sample.middleware Sample.req_plain
      Sample.world
    = Ok (ReturnReplaced r, m, w')
    /\ dict_get "splash/render.json/request_count" (stats w') = Some 1%Z
    /\ (forall k, k <> "splash/render.json/request_count" ->
                  dict_get k (stats w') = dict_get k (stats Sample.world))
    /\ log w' = log Sample.world.
Proof.
  assert (E : exists r m w',
             process_request Sample.runtime Sample.middleware Sample.req_plain
               Sample.world
             = Ok (ReturnReplaced r, m, w'))
    by (vm_compute; eexists _, _, _; reflexivity).
  destruct E as (r & m & w' & E).
  exists r, m, w'. split; [exact E|].
  exact (request_count_incremented Sample.runtime Sample.middleware
           Sample.req_plain Sample.world r m w' [("args", VDict [])]
           eq_refl E).
Defined.

Lemma process_response_passes_response_witness :
  exists r m w' w'',
    process_request Sample.runtime Sample.middleware Sample.req_plain
      Sample.world
    = Ok (ReturnReplaced r, m, w')
    /\ process_response Sample.runtime Sample.middleware r Sample.response_ok
         w'
       = Ok (Sample.response_ok, w'')
    /\ log w'' = log w'
    /\ stats w''
       = [("splash/render.json/request_count", 1%Z);
          ("splash/render.json/response_count/200", 1%Z)].
Proof.
  assert (E : exists r m w' w'',
             process_request Sample.runtime Sample.middleware Sample.req_plain
               Sample.world
             = Ok (ReturnReplaced r, m, w')
             /\ process_response Sample.runtime Sample.middleware r
                  Sample.response_ok w'
                = Ok (Sample.response_ok, w'')
             /\ stats w''
                = [("splash/render.json/request_count", 1%Z);
                   ("splash/render.json/response_count/200", 1%Z)])
    by (vm_compute; eexists _, _, _, _; repeat split; reflexivity).
  destruct E as (r & m & w' & w'' & E1 & E2 & E3).
  exists r, m, w', w''. split; [exact E1|]. split; [exact E2|].
  split; [|exact E3].
  exact (proj1 (proj2 (process_response_passes_response Sample.runtime
                         Sample.middleware r Sample.response_ok w'
                         Sample.response_ok w'' E2))).
Defined.

(** X5 on the sample request. *)
Lemma response_counted_under_request_endpoint_witness :
  exists r m w',
    process_request Sample.runtime Sample.middleware Sample.req_proxy
      Sample.world
    = Ok (ReturnReplaced r, m, w')
    /\ process_response Sample.runtime Sample.middleware r Sample.response_ok
         w'
       = Ok (Sample.response_ok,
             inc_value "splash/execute/response_count/200" w').
Proof.
  assert (E : exists r m w',
             process_request Sample.runtime Sample.middleware Sample.req_proxy
               Sample.world
             = Ok (ReturnReplaced r, m, w'))
    by (vm_compute; eexists _, _, _; reflexivity).
  destruct E as (r & m & w' & E).
  exists r, m, w'. split; [exact E|].
  exact (proj1 (response_counted_under_request_endpoint Sample.runtime
                  Sample.middleware Sample.req_proxy Sample.world r m w'
                  [("args", VDict [])] Sample.response_ok
                  eq_refl E eq_refl)).
Defined.

(** X6 on a request for one shared slot. *)
Lemma download_slot_follows_policy_witness :
  exists r m w',
    process_request Sample.runtime Sample.middleware Sample.req_single_slot
      Sample.world
    = Ok (ReturnReplaced r, m, w')
    /\ slot_policy Sample.middleware = VStr PER_DOMAIN
    /\ dict_get "download_slot" m = Some (VStr "__splash__").
Proof.
  assert (E : exists r m w',
             process_request Sample.runtime Sample.middleware
               Sample.req_single_slot Sample.world
             = Ok (ReturnReplaced r, m, w'))
    by (vm_compute; eexists _, _, _; reflexivity).
  destruct E as (r & m & w' & E).
  exists r, m, w'. split; [exact E|]. split; [reflexivity|].
  destruct (download_slot_follows_policy Sample.runtime Sample.middleware
              Sample.req_single_slot Sample.world r m w'
              [("slot_policy", VStr "single_slot")] eq_refl E)
    as (_ & _ & X & _).
  exact (X eq_refl).
Defined.

(** X7 and X8 on a request with metadata of its own and overrides. *)
Lemma other_metadata_is_kept_witness :
  exists r m w',
    process_request Sample.runtime Sample.middleware Sample.req_meta
      Sample.world
    = Ok (ReturnReplaced r, m, w')
    /\ dict_get "cookiejar" m = Some (VInt 3)
    /\ dict_get "cookiejar" (meta r) = Some (VInt 3).
Proof.
  assert (E : exists r m w',
             process_request Sample.runtime Sample.middleware Sample.req_meta
               Sample.world
             = Ok (ReturnReplaced r, m, w'))
    by (vm_compute; eexists _, _, _; reflexivity).
  destruct E as (r & m & w' & E).
  exists r, m, w'. split; [exact E|].
  assert (N : ~ In "cookiejar"
                ["splash"; "_splash_processed"; "download_slot"; "proxy";
                 "download_timeout"])
    by (intros [H|[H|[H|[H|[H|[]]]]]]; discriminate).
  destruct (other_metadata_is_kept Sample.runtime Sample.middleware
              Sample.req_meta Sample.world r m w'
              [("meta", VDict [("dont_retry", VBool true)])] "cookiejar"
              eq_refl E N)
    as (A & B).
  split; [exact A|]. exact (B eq_refl).
Defined.

Lemma overrides_reach_rewritten_request_witness :
  exists r m w',
    process_request Sample.runtime Sample.middleware Sample.req_meta
      Sample.world
    = Ok (ReturnReplaced r, m, w')
    /\ dict_get "dont_retry" (meta r) = Some (VBool true)
    /\ dict_get "dont_retry" m = None.
Proof.
  assert (E : exists r m w',
             process_request Sample.runtime Sample.middleware Sample.req_meta
               Sample.world
             = Ok (ReturnReplaced r, m, w')
             /\ dict_get "dont_retry" m = None)
    by (vm_compute; eexists _, _, _; split; reflexivity).
  destruct E as (r & m & w' & E & D).
  exists r, m, w'. split; [exact E|]. split; [|exact D].
  apply (overrides_reach_rewritten_request Sample.runtime Sample.middleware
           Sample.req_meta Sample.world r m w'
           [("meta", VDict [("dont_retry", VBool true)])] "dont_retry"
           (VBool true) eq_refl E).
  - repeat constructor. intros [].
  - reflexivity.
Defined.

(** X10 on settings with a user and a password. *)
Lemma rewritten_headers_from_settings_witness :
  exists self r m w',
    from_crawler Sample.runtime Sample.settings_auth = Ok self
    /\ process_request Sample.runtime self Sample.req_plain Sample.world
       = Ok (ReturnReplaced r, m, w')
    /\ method r = "POST"
    /\ headers r
       = [("Content-Type", ["application/json"]);
          ("Authorization", ["Basic dXNlcjpwYXNz"])].
Proof.
  set (self := mkMiddleware (VStr default_splash_url) (VStr default_policy)
                 (Some "Basic dXNlcjpwYXNz")).
  assert (F : from_crawler Sample.runtime Sample.settings_auth = Ok self)
    by reflexivity.
  assert (E : exists r m w',
             process_request Sample.runtime self Sample.req_plain
               Sample.world
             = Ok (ReturnReplaced r, m, w'))
    by (vm_compute; eexists _, _, _; reflexivity).
  destruct E as (r & m & w' & E).
  exists self, r, m, w'. split; [exact F|]. split; [exact E|].
  destruct (rewritten_headers_from_settings Sample.runtime
              Sample.settings_auth self Sample.req_plain Sample.world r m w'
              F E)
    as (P & _ & A).
  split; [exact P|].
  assert (N : "Basic dXNlcjpwYXNz" <> "") by discriminate.
  exact (A eq_refl N).
Defined.

(** X12, X13 and X14 on malformed requests. *)
Lemma options_must_be_dictionaries_witness :
  process_request Sample.runtime Sample.middleware Sample.req_bad_options
    Sample.world
  = Raise AttributeError
  /\ process_request Sample.runtime Sample.middleware Sample.req_bad_args
       Sample.world
     = Raise AttributeError.
Proof.
  split.
  - apply (options_must_be_dictionaries Sample.runtime Sample.middleware
             Sample.req_bad_options Sample.world eq_refl eq_refl).
    intros d. discriminate.
  - apply (proj2 (options_must_be_dictionaries Sample.runtime
                    Sample.middleware Sample.req_bad_args Sample.world
                    eq_refl eq_refl)
             [("args", VInt 1)] (VInt 1) eq_refl eq_refl).
    intros a. discriminate.
Defined.

Lemma timeout_must_convert_witness :
  process_request Sample.runtime Sample.middleware Sample.req_bad_timeout
    Sample.world
  = Raise TypeError.
Proof.
  exact (proj1 (timeout_must_convert Sample.runtime Sample.middleware
                  Sample.req_bad_timeout Sample.world
                  [("args", VDict [("timeout", VNone)])] VNone TypeError
                  eq_refl eq_refl eq_refl eq_refl eq_refl eq_refl)).
Defined.

Lemma proxy_must_be_a_string_witness :
  process_request Sample.runtime Sample.middleware Sample.req_bad_proxy
    Sample.world
  = Raise AttributeError.
Proof.
  assert (N : [("args", VDict [])] <> @nil (string * pyval)) by discriminate.
  assert (Ns : forall s, VInt 1 <> VStr s) by (intros s; discriminate).
  exact (proxy_must_be_a_string Sample.runtime Sample.middleware
           Sample.req_bad_proxy Sample.world [("args", VDict [])] []
           (VInt 1) eq_refl eq_refl N eq_refl eq_refl eq_refl Ns).
Defined.

Lemma rewrite_needs_wellformed_options_witness :
  [("meta", VDict [("dont_retry", VBool true)])] <> @nil (string * pyval).
Proof.
  assert (E : exists r m w',
             process_request Sample.runtime Sample.middleware Sample.req_meta
               Sample.world
             = Ok (ReturnReplaced r, m, w'))
    by (vm_compute; eexists _, _, _; reflexivity).
  destruct E as (r & m & w' & E).
  exact (proj1 (rewrite_needs_wellformed_options Sample.runtime
                  Sample.middleware Sample.req_meta Sample.world r m w'
                  [("meta", VDict [("dont_retry", VBool true)])]
                  eq_refl E)).
Defined.

Lemma options_and_args_are_kept_witness :
  exists r m w' opts args,
    process_request Sample.runtime Sample.middleware Sample.req_meta
      Sample.world
    = Ok (ReturnReplaced r, m, w')
    /\ dict_get "_splash_processed" m = Some (VDict opts)
    /\ dict_get "args" opts = Some (VDict args)
    /\ body r = json_py.dumps (float_repr Sample.runtime) (VDict args).
Proof.
  assert (E : exists r m w',
             process_request Sample.runtime Sample.middleware Sample.req_meta
               Sample.world
             = Ok (ReturnReplaced r, m, w'))
    by (vm_compute; eexists _, _, _; reflexivity).
  destruct E as (r & m & w' & E).
  destruct (options_and_args_are_kept Sample.runtime Sample.middleware
              Sample.req_meta Sample.world r m w'
              [("meta", VDict [("dont_retry", VBool true)])] eq_refl E)
    as (opts & args & M & A & B & _).
  exists r, m, w', opts, args. auto.
Defined.

Lemma download_timeout_kept_without_timeout_witness :
  exists r m w',
    process_request Sample.runtime Sample.middleware Sample.req_meta
      Sample.world
    = Ok (ReturnReplaced r, m, w')
    /\ dict_get "download_timeout" m = None.
Proof.
  assert (E : exists r m w',
             process_request Sample.runtime Sample.middleware Sample.req_meta
               Sample.world
             = Ok (ReturnReplaced r, m, w'))
    by (vm_compute; eexists _, _, _; reflexivity).
  destruct E as (r & m & w' & E).
  exists r, m, w'. split; [exact E|].
  exact (proj1 (download_timeout_kept_without_timeout Sample.runtime
                  Sample.middleware Sample.req_meta Sample.world r m w'
                  [("meta", VDict [("dont_retry", VBool true)])]
                  eq_refl eq_refl E)).
Defined.

Lemma overrides_must_be_a_dictionary_witness :
  process_request Sample.runtime Sample.middleware Sample.req_bad_overrides
    Sample.world
  = Raise TypeError.
Proof.
  assert (U : urljoin
                (dict_get_default "splash_url"
                   (splash_base_url Sample.middleware)
                   [("meta", VInt 1)])
                (dict_get_default "endpoint" (VStr default_endpoint)
                   [("meta", VInt 1)])
              = Ok (VStr "http://127.0.0.1:8050/render.json"))
    by (vm_compute; reflexivity).
  assert (Nd : forall d, VInt 1 <> VDict d) by (intros d; discriminate).
  assert (Ns : VInt 1 <> VStr "") by discriminate.
  exact (overrides_must_be_a_dictionary Sample.runtime Sample.middleware
           Sample.req_bad_overrides Sample.world [("meta", VInt 1)] []
           (VInt 1) "http://127.0.0.1:8050/render.json"
           eq_refl eq_refl eq_refl eq_refl eq_refl U eq_refl Nd Ns).
Defined.

Lemma original_request_is_passed_on_afterwards_witness :
  exists m,
    process_request Sample.runtime Sample.middleware_slash
      (with_meta Sample.req_plain m) Sample.world
    = Ok (ReturnNone, m, Sample.world).
Proof.
  assert (E : exists r m w',
             process_request Sample.runtime Sample.middleware Sample.req_plain
               Sample.world
             = Ok (ReturnReplaced r, m, w'))
    by (vm_compute; eexists _, _, _; reflexivity).
  destruct E as (r & m & w' & E).
  exists m.
  exact (proj1 (proj2 (original_request_is_passed_on_afterwards
                         Sample.runtime Sample.middleware Sample.req_plain
                         Sample.world r m w' Sample.middleware_slash
                         Sample.world Sample.response_ok E))).
Defined.
